(** * TrackHub: status synchronisation, cascade delete, user safety checks
      and the request gate, embedded from the Python sources.

    Python integers are unbounded, so they are [Z]; [|] on them is [Z.lor].
    JSON payloads and dynamically typed attributes are [value]s, request
    dictionaries are [gmap string value], database tables are [gmap Z row]
    keyed by primary key.  Service methods run in a state-and-exception
    monad over the tables as the session sees them: a raised exception
    carries the store as it was when the exception left the method, the
    assignments made up to then included (no method rolls back itself;
    what is discarded when the request ends lies outside the methods).
    The database is SQLite (app.py): integers are signed 64-bit, a None
    in a [nullable=False] column is refused when the row is flushed, and
    foreign keys are not enforced by the database. *)

From Stdlib Require Import ZArith String List Lia DecimalString.
From stdpp Require Import gmap strings list fin_maps.

Local Open Scope string_scope.
Local Open Scope Z_scope.

(** ** Python values *)

Inductive value : Type :=
  | VNone
  | VInt (z : Z)
  | VStr (s : string).

(** [a == b] on the values above. *)
Definition value_eqb (a b : value) : bool :=
  match a, b with
  | VNone, VNone => true
  | VInt x, VInt y => x =? y
  | VStr x, VStr y => String.eqb x y
  | _, _ => false
  end.

(** Truth value of an object in a condition. *)
Definition truthy (v : value) : bool :=
  match v with
  | VNone => false
  | VInt z => negb (z =? 0)
  | VStr s => negb (String.eqb s "")
  end.

Definition opt_truthy (o : option Z) : bool :=
  match o with
  | None => false
  | Some z => negb (z =? 0)
  end.

(** ** models.py *)

Module Roles.
Definition ADMIN : string := "admin".
Definition TECHNICIAN : string := "technician".
End Roles.

Record Date : Type := mkDate { year : Z; month : Z; day : Z }.

(** The rows keep the column names of models.py.  Projections share one
    name space here, so [Equipment.description] is [eq_description] and
    [Intervention.equipment_id] / [Intervention.user_id] are
    [iv_equipment_id] / [iv_user_id].  Columns that only ever hold what a
    request put there are [value]s; nullable integer columns are
    [option Z]. *)

Record User : Type := mkUser {
  user_id : Z;
  username : value;
  password_hash : value;
  role : value;
  first_name : value;
  last_name : value;
  email : value;
  phone : value
}.

Record Equipment : Type := mkEquipment {
  equipment_id : Z;
  name : value;
  eq_description : value;
  type_id : Z;
  status_id : Z;
  location_id : option Z
}.

Record Intervention : Type := mkIntervention {
  intervention_id : Z;
  date : Date;
  description : value;
  duration_minutes : option Z;
  iv_equipment_id : Z;
  iv_user_id : option Z;
  outcome_id : option Z
}.

(** The three tables the services below touch. *)
Record Store : Type := mkStore {
  users : gmap Z User;
  equipment : gmap Z Equipment;
  interventions : gmap Z Intervention
}.

Definition with_users (f : gmap Z User → gmap Z User) (s : Store) : Store :=
  mkStore (f (users s)) (equipment s) (interventions s).
Definition with_equipment (f : gmap Z Equipment → gmap Z Equipment) (s : Store) : Store :=
  mkStore (users s) (f (equipment s)) (interventions s).
Definition with_interventions (f : gmap Z Intervention → gmap Z Intervention) (s : Store) : Store :=
  mkStore (users s) (equipment s) (f (interventions s)).

(** ** Exceptions and the service monad *)

Inductive exn : Type :=
  | ValueError (msg : string)
  | TypeError (msg : string)
  | AttributeError (msg : string)
  | IntegrityError (msg : string)
  | OverflowError (msg : string).

Inductive res (A : Type) : Type :=
  | Return (a : A)
  | Raise (e : exn).
Arguments Return {A} a.
Arguments Raise {A} e.

Definition M (A : Type) : Type := Store → res A * Store.

Definition ret {A} (a : A) : M A := λ s, (Return a, s).
Definition raise {A} (e : exn) : M A := λ s, (Raise e, s).
Definition bind {A B} (m : M A) (k : A → M B) : M B :=
  λ s, match m s with
       | (Return a, s') => k a s'
       | (Raise e, s') => (Raise e, s')
       end.
Definition get_store : M Store := λ s, (Return s, s).
Definition modify (f : Store → Store) : M unit := λ s, (Return tt, f s).

Declare Scope py_scope.
Delimit Scope py_scope with py.
Notation "'let!' x := m 'in' k" := (bind m (λ x, k))
  (at level 10, x name, m at level 100, k at level 200) : py_scope.
Notation "m ;; k" := (bind m (λ _, k))
  (at level 100, k at level 200, right associativity) : py_scope.
Local Open Scope py_scope.

Definition failed {A} (r : res A) : bool :=
  match r with Return _ => false | Raise _ => true end.

(** [if cond: body] with no else branch. *)
Definition when (b : bool) (body : M unit) : M unit :=
  if b then body else ret tt.

(** [if key in data: body(data[key])]. *)
Definition when_in (data : gmap string value) (key : string)
    (body : value → M unit) : M unit :=
  match data !! key with
  | Some v => body v
  | None => ret tt
  end.

(** [db.session.commit()]: the pending changes become durable.  The store
    already holds them, so nothing changes here; what the flush before it
    can refuse is modelled where a method writes ([session_add_...],
    [session_flush_...], [session_delete_...]). *)
Definition commit : M unit := ret tt.

(** The integers an SQLite INTEGER column holds, and the only ones the
    database driver binds as a statement parameter: signed 64-bit.  For a
    Python int outside this range the driver raises OverflowError before
    the statement runs. *)
Definition sqlite_integer (n : Z) : bool :=
  (- 2 ^ 63 <=? n) && (n <=? 2 ^ 63 - 1).

Definition overflow_error : exn :=
  OverflowError "Python int too large to convert to SQLite INTEGER".

(** A column declared [nullable=False] refuses [None]. *)
Definition not_null (v : value) : bool :=
  match v with VNone => false | _ => true end.

Definition integrity_error : exn := IntegrityError "NOT NULL constraint failed".

(** A column takes part in the UPDATE of a loaded row only when its value
    differs from the one loaded; [ok] is what the statement then asks of
    the new value. *)
Definition unchanged_or {A} (eqb : A → A → bool) (ok : A → bool) (old new : A) : bool :=
  eqb old new || ok new.

(** ** services/intervention_service.py *)

Module InterventionService.

Definition OUTCOME_RESOLVED : Z := 1.
Definition OUTCOME_MONITORING : Z := 2.
Definition OUTCOME_PENDING : Z := 3.

Definition STATUS_WORKING : Z := 1.
Definition STATUS_UNDER_REPAIR : Z := 2.

(** [Equipment.query.get(equipment_id)]: the row stored under the key, or
    [None] when the key is an SQLite integer that no row has.  A key
    outside the 64-bit range cannot be bound as the query's parameter, so
    the lookup raises OverflowError (no row is stored under such a key). *)
Definition Equipment_query_get (id : Z) : M (option Equipment) :=
  let! s := get_store in
  match equipment s !! id with
  | Some row => ret (Some row)
  | None => if sqlite_integer id then ret None else raise overflow_error
  end.

(** [Intervention.query.get(intervention_id)], likewise. *)
Definition Intervention_query_get (id : Z) : M (option Intervention) :=
  let! s := get_store in
  match interventions s !! id with
  | Some row => ret (Some row)
  | None => if sqlite_integer id then ret None else raise overflow_error
  end.

Definition with_status_id (v : Z) (e : Equipment) : Equipment :=
  mkEquipment (equipment_id e) (name e) (eq_description e) (type_id e)
              v (location_id e).

(** [equipment.status_id = v] on the row loaded under key [id]. *)
Definition set_status_id (id v : Z) : M unit :=
  modify (with_equipment (alter (with_status_id v) id)).

(** The attribute path [Intervention.Service] of line 261.  The class
    [Intervention] of models.py declares the columns intervention_id,
    date, description, duration_minutes, equipment_id, user_id,
    outcome_id and the method to_dict; nothing is named [Service], so
    evaluating the path raises before [.OUTCOME_MONITORING] is read. *)
Definition attribute_error : exn :=
  AttributeError "type object 'Intervention' has no attribute 'Service'".

Definition Intervention_Service_OUTCOME_MONITORING : M Z :=
  raise attribute_error.

(** The condition of the [elif] on line 261,
      [outcome_id == OUTCOME_PENDING | outcome_id == Intervention.Service.OUTCOME_MONITORING].
    [|] binds tighter than [==], so this is the chained comparison
      [a == b == c] with [b = OUTCOME_PENDING | outcome_id]:
    [a == b] first, and only when it holds is [c] evaluated and
    compared with [b]. *)
Definition rule2_condition (outcome_id : Z) : M bool :=
  let b := Z.lor OUTCOME_PENDING outcome_id in
  if outcome_id =? b then
    let! c := Intervention_Service_OUTCOME_MONITORING in
    ret (b =? c)
  else ret false.

Definition _update_equipment_status (equipment_id outcome_id : Z) : M unit :=
  let! equipment := Equipment_query_get equipment_id in
  match equipment with
  | None => ret tt
  | Some _ =>
      if outcome_id =? OUTCOME_RESOLVED then
        set_status_id equipment_id STATUS_WORKING
      else
        let! c := rule2_condition outcome_id in
        when c (set_status_id equipment_id STATUS_UNDER_REPAIR)
  end.

(** *** update_intervention *)

Section InterventionUpdate.

(** [int(s)] on a string and [datetime.strptime(s, '%Y-%m-%d').date()]
    are built-ins of the interpreter; [None] stands for their
    [ValueError]. *)
Variable int_of_str : string → option Z.
Variable strptime : string → option Date.

(** [int(v)] *)
Definition py_int (v : value) : M Z :=
  match v with
  | VInt z => ret z
  | VStr s =>
      match int_of_str s with
      | Some z => ret z
      | None => raise (ValueError "invalid literal for int() with base 10")
      end
  | VNone => raise (TypeError "int() argument must be a string, a bytes-like object or a real number, not 'NoneType'")
  end.

(** [datetime.strptime(v, '%Y-%m-%d').date()] inside
    [try: ... except ValueError: pass]: a string that does not parse is
    swallowed ([Return None]); a non-string argument is a [TypeError],
    which the handler does not catch. *)
Definition try_strptime (v : value) : M (option Date) :=
  match v with
  | VStr s => ret (strptime s)
  | _ => raise (TypeError "strptime() argument 1 must be str")
  end.

Definition alter_intervention (f : Intervention → Intervention) (id : Z) : M unit :=
  modify (with_interventions (alter f id)).

Definition with_description (v : value) (i : Intervention) : Intervention :=
  mkIntervention (intervention_id i) (date i) v (duration_minutes i)
                 (iv_equipment_id i) (iv_user_id i) (outcome_id i).
Definition with_duration_minutes (v : Z) (i : Intervention) : Intervention :=
  mkIntervention (intervention_id i) (date i) (description i) (Some v)
                 (iv_equipment_id i) (iv_user_id i) (outcome_id i).
Definition with_date (v : Date) (i : Intervention) : Intervention :=
  mkIntervention (intervention_id i) v (description i) (duration_minutes i)
                 (iv_equipment_id i) (iv_user_id i) (outcome_id i).
Definition with_user_id (v : Z) (i : Intervention) : Intervention :=
  mkIntervention (intervention_id i) (date i) (description i) (duration_minutes i)
                 (iv_equipment_id i) (Some v) (outcome_id i).
Definition with_equipment_id (v : Z) (i : Intervention) : Intervention :=
  mkIntervention (intervention_id i) (date i) (description i) (duration_minutes i)
                 v (iv_user_id i) (outcome_id i).
Definition with_outcome_id (v : Z) (i : Intervention) : Intervention :=
  mkIntervention (intervention_id i) (date i) (description i) (duration_minutes i)
                 (iv_equipment_id i) (iv_user_id i) (Some v).

(** [intervention.<field> = v] on the row loaded under key [id]. *)
Definition set_description (id : Z) (v : value) : M unit :=
  alter_intervention (with_description v) id.
Definition set_duration_minutes (id : Z) (v : Z) : M unit :=
  alter_intervention (with_duration_minutes v) id.
Definition set_date (id : Z) (v : Date) : M unit :=
  alter_intervention (with_date v) id.
Definition set_user_id (id : Z) (v : Z) : M unit :=
  alter_intervention (with_user_id v) id.
Definition set_equipment_id (id : Z) (v : Z) : M unit :=
  alter_intervention (with_equipment_id v) id.
Definition set_outcome_id (id : Z) (v : Z) : M unit :=
  alter_intervention (with_outcome_id v) id.

(** The current attributes of the intervention object loaded under key
    [id]; [loaded] is the row as it was when the object was loaded. *)
Definition read_intervention (id : Z) (loaded : Intervention) : M Intervention :=
  let! s := get_store in ret (default loaded (interventions s !! id)).

(** The UPDATE a flush issues for the intervention loaded as [loaded]:
    [description], declared [nullable=False], must not have become None.
    The session flushes before the rule's lookup and again at
    [db.session.commit()]. *)
Definition session_flush_intervention (id : Z) (loaded : Intervention) : M unit :=
  let! now := read_intervention id loaded in
  if unchanged_or value_eqb not_null (description loaded) (description now) then ret tt
  else raise integrity_error.

(** [new_outcome_id if new_outcome_id else intervention.outcome_id] *)
Definition outcome_to_check (new_outcome_id stored : option Z) : option Z :=
  if opt_truthy new_outcome_id then new_outcome_id else stored.

Definition update_intervention (intervention_id : Z) (data : gmap string value)
    : M (option Intervention) :=
  let! intervention := Intervention_query_get intervention_id in
  match intervention with
  | None => ret None
  | Some loaded =>
      when_in data "description" (set_description intervention_id) ;;
      when_in data "duration_minutes" (λ v,
        let! n := py_int v in set_duration_minutes intervention_id n) ;;
      when_in data "date" (λ v,
        when (truthy v) (
          let! d := try_strptime v in
          match d with
          | Some d => set_date intervention_id d
          | None => ret tt
          end)) ;;
      when_in data "technician_id" (λ v,
        let! n := py_int v in set_user_id intervention_id n) ;;
      when_in data "equipment_id" (λ v,
        let! n := py_int v in set_equipment_id intervention_id n) ;;
      let! new_outcome_id :=
        match data !! "outcome_id" with
        | Some v =>
            let! n := py_int v in
            set_outcome_id intervention_id n ;; ret (Some n)
        | None => ret None
        end in
      let! now := read_intervention intervention_id loaded in
      match outcome_to_check new_outcome_id (outcome_id now) with
      | Some outcome =>
          when (negb (iv_equipment_id now =? 0) && negb (outcome =? 0)) (
            session_flush_intervention intervention_id loaded ;;
            _update_equipment_status (iv_equipment_id now) outcome)
      | None => ret tt
      end ;;
      session_flush_intervention intervention_id loaded ;;
      commit ;;
      let! now := read_intervention intervention_id loaded in
      ret (Some now)
  end.

End InterventionUpdate.

End InterventionService.

(** ** services/equipment_service.py *)

Module EquipmentService.

(** [Intervention.query.filter_by(equipment_id=equipment_id).all()] *)
Definition interventions_of (equipment_id : Z) (s : Store) : gmap Z Intervention :=
  filter (λ kv, iv_equipment_id kv.2 = equipment_id) (interventions s).

Definition Intervention_filter_by_equipment_id (equipment_id : Z)
    : M (list (Z * Intervention)) :=
  let! s := get_store in ret (map_to_list (interventions_of equipment_id s)).

(** [db.session.delete(intervention)] *)
Definition session_delete_intervention (id : Z) : M unit :=
  modify (with_interventions (delete id)).

(** [db.session.delete(equipment)].  models.py declares
    [Intervention.equipment_id] as a foreign key with [nullable=False]
    and the relationship [Equipment.interventions] without a delete
    cascade, so removing an equipment row that interventions still
    reference is rejected with an integrity error. *)
Definition session_delete_equipment (id : Z) : M unit :=
  let! s := get_store in
  match map_to_list (interventions_of id s) with
  | [] => modify (with_equipment (delete id))
  | _ :: _ => raise (IntegrityError "NOT NULL constraint failed: intervention.equipment_id")
  end.

(** [for x in l: body(x)] *)
Fixpoint for_each {A} (l : list A) (body : A → M unit) : M unit :=
  match l with
  | [] => ret tt
  | x :: l' => body x ;; for_each l' body
  end.

Definition delete_equipment (equipment_id : Z) : M bool :=
  let! equipment := InterventionService.Equipment_query_get equipment_id in
  match equipment with
  | None => ret false
  | Some _ =>
      let! interventions := Intervention_filter_by_equipment_id equipment_id in
      for_each interventions (λ intervention,
        session_delete_intervention intervention.1) ;;
      session_delete_equipment equipment_id ;;
      commit ;;
      ret true
  end.

End EquipmentService.

(** ** models.User.to_dict *)

(** The dictionary literal returned by [User.to_dict]. *)
Definition to_dict (self : User) : gmap string value :=
  list_to_map [
    ("user_id", VInt (user_id self));
    ("username", username self);
    ("role", role self);
    ("first_name", first_name self);
    ("last_name", last_name self);
    ("email", email self);
    ("phone", phone self)
  ].

(** [self.password_hash = h] *)
Definition set_password_hash (self : User) (h : value) : User :=
  mkUser (user_id self) (username self) h (role self) (first_name self)
         (last_name self) (email self) (phone self).

(** ** services/user_service.py *)

Module UserService.

(** [User.query.get(user_id)] *)
Definition User_query_get (id : Z) : M (option User) :=
  let! s := get_store in ret (users s !! id).

Definition is_admin (u : User) : bool := value_eqb (role u) (VStr Roles.ADMIN).
Definition is_technician (u : User) : bool := value_eqb (role u) (VStr Roles.TECHNICIAN).

(** [User.query.filter_by(role=Roles.ADMIN)] *)
Definition admins (s : Store) : gmap Z User :=
  filter (λ kv, Is_true (is_admin kv.2)) (users s).

(** [User.query.filter_by(role=Roles.ADMIN).count()] *)
Definition count_admins (s : Store) : Z := Z.of_nat (size (admins s)).

Definition User_query_count_admins : M Z :=
  let! s := get_store in ret (count_admins s).

Definition alter_user (f : User → User) (id : Z) : M unit :=
  modify (with_users (alter f id)).

Definition with_first_name (v : value) (u : User) : User :=
  mkUser (user_id u) (username u) (password_hash u) (role u)
         v (last_name u) (email u) (phone u).
Definition with_last_name (v : value) (u : User) : User :=
  mkUser (user_id u) (username u) (password_hash u) (role u)
         (first_name u) v (email u) (phone u).
Definition with_email (v : value) (u : User) : User :=
  mkUser (user_id u) (username u) (password_hash u) (role u)
         (first_name u) (last_name u) v (phone u).
Definition with_phone (v : value) (u : User) : User :=
  mkUser (user_id u) (username u) (password_hash u) (role u)
         (first_name u) (last_name u) (email u) v.
Definition with_role (v : value) (u : User) : User :=
  mkUser (user_id u) (username u) (password_hash u) v
         (first_name u) (last_name u) (email u) (phone u).

(** [user.<field> = v] on the row loaded under key [id]. *)
Definition set_first_name (id : Z) (v : value) : M unit := alter_user (with_first_name v) id.
Definition set_last_name (id : Z) (v : value) : M unit := alter_user (with_last_name v) id.
Definition set_email (id : Z) (v : value) : M unit := alter_user (with_email v) id.
Definition set_phone (id : Z) (v : value) : M unit := alter_user (with_phone v) id.
Definition set_role (id : Z) (v : value) : M unit := alter_user (with_role v) id.

Definition last_admin_demotion_msg : string :=
  "Cannot change role: This is the only Administrator left.".
Definition promotion_denied_msg : string :=
  "Operation Forbidden: A Technician cannot be promoted to Administrator.".
Definition last_admin_deletion_msg : string :=
  "Cannot delete user: This is the only Administrator left in the system.".

(** The UPDATE that the flush of [db.session.commit()] issues for the user
    loaded as [loaded]: it sets the changed columns, and the database
    refuses None in [first_name] and [last_name], declared
    [nullable=False]. *)
Definition session_flush_user (id : Z) (loaded : User) : M unit :=
  let! s := get_store in
  let now := default loaded (users s !! id) in
  if unchanged_or value_eqb not_null (first_name loaded) (first_name now)
     && unchanged_or value_eqb not_null (last_name loaded) (last_name now)
  then ret tt
  else raise integrity_error.

Definition update_user (user_id : Z) (data : gmap string value) : M (option User) :=
  let! user := User_query_get user_id in
  match user with
  | None => ret None
  | Some user =>
      (* 1. last admin demotion *)
      match data !! "role" with
      | Some new_role =>
          when (is_admin user) (
            when (negb (value_eqb new_role (VStr Roles.ADMIN))) (
              let! admin_count := User_query_count_admins in
              when (admin_count <=? 1) (
                raise (ValueError last_admin_demotion_msg))))
      | None => ret tt
      end ;;
      (* 2. technician promotion denied *)
      match data !! "role" with
      | Some new_role =>
          when (is_technician user) (
            when (value_eqb new_role (VStr Roles.ADMIN)) (
              raise (ValueError promotion_denied_msg)))
      | None => ret tt
      end ;;
      when_in data "first_name" (set_first_name user_id) ;;
      when_in data "last_name" (set_last_name user_id) ;;
      when_in data "email" (set_email user_id) ;;
      when_in data "phone" (set_phone user_id) ;;
      when_in data "role" (set_role user_id) ;;
      session_flush_user user_id user ;;
      commit ;;
      let! s := get_store in
      ret (Some (default user (users s !! user_id)))
  end.

(** What deleting user [user_id] does to an intervention: models.py gives
    [User.interventions] no delete cascade and [Intervention.user_id] is
    nullable, so the ORM detaches the user's interventions by setting
    their [user_id] to NULL. *)
Definition detach_technician (user_id : Z) (i : Intervention) : Intervention :=
  if bool_decide (iv_user_id i = Some user_id) then
    mkIntervention (intervention_id i) (date i) (description i) (duration_minutes i)
                   (iv_equipment_id i) None (outcome_id i)
  else i.

(** [db.session.delete(user)] *)
Definition session_delete_user (user_id : Z) : M unit :=
  modify (with_interventions (fmap (detach_technician user_id))) ;;
  modify (with_users (delete user_id)).

Definition delete_user (user_id : Z) : M bool :=
  let! user := User_query_get user_id in
  match user with
  | None => ret false
  | Some user =>
      when (is_admin user) (
        let! admin_count := User_query_count_admins in
        when (admin_count <=? 1) (
          raise (ValueError last_admin_deletion_msg))) ;;
      session_delete_user user_id ;;
      commit ;;
      ret true
  end.

End UserService.

(** ** utils/security.py, routes and app.py *)

Module App.

(** A registered view function: its endpoint name and the attribute
    [is_public], absent unless a decorator set it. *)
Record view_func : Type := mkView {
  endpoint_name : string;
  is_public : option bool
}.

Definition view (name : string) : view_func := mkView name None.

(** utils/security.py: [view_func.is_public = True; return view_func] *)
Definition public_route (f : view_func) : view_func :=
  mkView (endpoint_name f) (Some true).

(** flask_login's decorator wraps the view and keeps its attributes. *)
Definition login_required (f : view_func) : view_func := f.

(** [getattr(view_func, 'is_public', False)] *)
Definition getattr_is_public (f : view_func) (dflt : bool) : bool :=
  default dflt (is_public f).

(** The handlers as the route modules decorate them, outermost
    decorator applied last. *)
Definition registered : list view_func := [
  (* routes/web.py *)
  login_required (view "web.dashboard");
  view "web.view_equipment";
  view "web.view_new_equipment";
  view "web.view_equipment_details";
  view "web.view_edit_equipment";
  view "web.view_interventions";
  view "web.view_interventions_details";
  view "web.view_edit_intervention";
  view "web.view_new_intervention";
  view "web.view_location";
  view "web.view_new_location";
  view "web.view_edit_location";
  view "web.view_users";
  view "web.view_users_details";
  login_required (view "web.view_new_user");
  login_required (view "web.view_edit_user");
  public_route (view "web.view_login_form");
  view "web.get_options";
  (* routes/equipment.py *)
  view "equipment.list_items";
  view "equipment.create_item";
  view "equipment.manage_single_resource";
  view "equipment.export_items";
  (* routes/intervention.py *)
  view "interventions.list_interventions";
  view "interventions.create_intervention";
  view "interventions.manage_single_intervention";
  view "interventions.export_items";
  (* routes/location.py *)
  view "locations.get_locations_stats";
  view "locations.create_item";
  view "locations.manage_single_location";
  (* routes/user.py *)
  view "user.get_all_technicians";
  view "user.create_user";
  public_route (view "user.login_api");
  public_route (login_required (view "user.logout_api"));
  view "user.get_current_user_status";
  login_required (view "user.list_items");
  login_required (view "user.manage_single_resource");
  (* routes/home.py *)
  login_required (view "home.get_dashboard_summary");
  login_required (view "home.get_my_activity");
  login_required (view "home.get_priority_list");
  (* app.py *)
  view "service_worker";
  view "static"
].

(** [app.view_functions] *)
Definition view_functions : gmap string view_func :=
  list_to_map ((λ f, (endpoint_name f, f)) <$> registered).

Inductive json : Type :=
  | JBool (b : bool)
  | JObject (d : gmap string value).

Inductive response : Type :=
  | Jsonify (body : gmap string json) (status : Z)
  | Redirect (endpoint : string).

(** [login_manager.login_view], set in app.py. *)
Definition login_view : string := "web.view_login_form".

(** [app.login_manager.unauthorized()]: with a login view configured the
    login manager answers with a redirect to it. *)
Definition unauthorized : response := Redirect login_view.

(** [current_user.is_authenticated]; [None] is the anonymous user. *)
Definition is_authenticated (current_user : option User) : bool :=
  match current_user with Some _ => true | None => false end.

(** The before-request hook.  [None]: the request goes on to its view. *)
Definition global_security_check (endpoint : option string)
    (current_user : option User) : option response :=
  if match endpoint with
     | Some e => negb (String.eqb e "") && String.prefix "static" e
     | None => false
     end
  then None
  else
    let view_func := endpoint ≫= (λ e, view_functions !! e) in
    if match view_func with
       | Some f => getattr_is_public f false
       | None => false
       end
    then None
    else if negb (is_authenticated current_user) then Some unauthorized
    else None.

(** routes/user.py, the view of GET /api/users/me. *)
Definition get_current_user_status (current_user : option User) : response :=
  match current_user with
  | Some u =>
      Jsonify (list_to_map [("authenticated", JBool true);
                            ("user", JObject (to_dict u))]) 200
  | None =>
      Jsonify (list_to_map [("authenticated", JBool false)]) 200
  end.

(** A GET /api/users/me request through the hook and then the view. *)
Definition request_users_me (current_user : option User) : response :=
  match global_security_check (Some "user.get_current_user_status") current_user with
  | Some r => r
  | None => get_current_user_status current_user
  end.

End App.

(** ** Rows added to a table *)

(** [data.get(key)] *)
Definition dict_get (data : gmap string value) (key : string) : value :=
  default VNone (data !! key).

(** The primary key a new row gets.  The tables are SQLite tables with an
    integer primary key (models.py, app.py), where a row inserted without
    a key gets the largest key in use plus one, and 1 in an empty table. *)
Definition next_key {V} (t : gmap Z V) : Z :=
  match (map_to_list t).*1 with
  | [] => 1
  | k :: ks => 1 + foldr Z.max k ks
  end.



(** ** services/intervention_service.py: create, read, delete *)

Module InterventionCrud.
Import InterventionService.

(** [db.session.add(intervention)] for the object built by
    [create_intervention]: the row enters the table under a new key.
    models.py declares [description] and [equipment_id] with
    [nullable=False], so an object without them is refused. *)
Definition session_add_intervention (date_val : Date) (descr : value)
    (duration user equipment outcome : option Z) : M Intervention :=
  match equipment with
  | Some equipment_id =>
      if not_null descr then
        let! s := get_store in
        let row := mkIntervention (next_key (interventions s)) date_val descr
                     duration equipment_id user outcome in
        modify (with_interventions (insert (intervention_id row) row)) ;;
        ret row
      else raise integrity_error
  | None => raise integrity_error
  end.

Section Create.

Variable int_of_str : string → option Z.
Variable strptime : string → option Date.
(** [datetime.utcnow().date()] *)
Variable today : Date.

(** [int(data.get(key)) if data.get(key) else None] *)
Definition int_if_given (data : gmap string value) (key : string) : M (option Z) :=
  if truthy (dict_get data key) then
    let! n := py_int int_of_str (dict_get data key) in ret (Some n)
  else ret None.

Definition create_intervention (data : gmap string value) : M Intervention :=
  let! date_val :=
    if truthy (dict_get data "date") then
      let! parsed := try_strptime strptime (dict_get data "date") in
      ret (default today parsed)
    else ret today in
  let! duration := int_if_given data "duration_minutes" in
  let! user := int_if_given data "technician_id" in
  let! equipment := int_if_given data "equipment_id" in
  let! outcome := int_if_given data "outcome_id" in
  let! intervention :=
    session_add_intervention date_val (dict_get data "description")
      (Some (default 0 duration)) user equipment outcome in
  match outcome_id intervention with
  | Some outcome =>
      when (negb (iv_equipment_id intervention =? 0) && negb (outcome =? 0)) (
        _update_equipment_status (iv_equipment_id intervention) outcome)
  | None => ret tt
  end ;;
  commit ;;
  ret intervention.

End Create.

Definition delete_intervention (intervention_id : Z) : M bool :=
  let! intervention := Intervention_query_get intervention_id in
  match intervention with
  | None => ret false
  | Some _ =>
      modify (with_interventions (delete intervention_id)) ;;
      commit ;;
      ret true
  end.

End InterventionCrud.

(** ** services/equipment_service.py: create, read, update *)

Module EquipmentCrud.
Import InterventionService.

(** [EquipmentService.get_equipment_by_id] *)
Definition get_equipment_by_id (equipment_id : Z) : M (option Equipment) :=
  Equipment_query_get equipment_id.

(** A value the driver can bind as a statement parameter: None, a string,
    or an integer of the 64-bit range. *)
Definition sqlite_value (v : value) : bool :=
  match v with
  | VInt n => sqlite_integer n
  | _ => true
  end.

(** [db.session.add(equipment)] and the INSERT its flush issues.  The
    parameters are bound first, so a value outside the 64-bit range raises
    OverflowError before the statement runs; then [name], declared
    [nullable=False], is checked by the database. *)
Definition session_add_equipment (name descr : value) (type_id status_id location_id : Z)
    : M Equipment :=
  if sqlite_value name && sqlite_value descr && sqlite_integer type_id
     && sqlite_integer status_id && sqlite_integer location_id then
    if not_null name then
      let! s := get_store in
      let row := mkEquipment (next_key (equipment s)) name descr type_id status_id
                   (Some location_id) in
      modify (with_equipment (insert (equipment_id row) row)) ;;
      ret row
    else raise integrity_error
  else raise overflow_error.

Definition alter_equipment (f : Equipment → Equipment) (id : Z) : M unit :=
  modify (with_equipment (alter f id)).

Definition with_name (v : value) (e : Equipment) : Equipment :=
  mkEquipment (equipment_id e) v (eq_description e) (type_id e) (status_id e) (location_id e).
Definition with_eq_description (v : value) (e : Equipment) : Equipment :=
  mkEquipment (equipment_id e) (name e) v (type_id e) (status_id e) (location_id e).
Definition with_type_id (v : Z) (e : Equipment) : Equipment :=
  mkEquipment (equipment_id e) (name e) (eq_description e) v (status_id e) (location_id e).
Definition with_location_id (v : Z) (e : Equipment) : Equipment :=
  mkEquipment (equipment_id e) (name e) (eq_description e) (type_id e) (status_id e) (Some v).

Definition location_eqb (a b : option Z) : bool :=
  match a, b with
  | Some x, Some y => x =? y
  | None, None => true
  | _, _ => false
  end.

Definition sqlite_location (a : option Z) : bool :=
  match a with Some n => sqlite_integer n | None => true end.

(** The UPDATE that the flush of [db.session.commit()] issues for the row
    loaded as [loaded]: it binds the changed columns first (OverflowError
    outside the 64-bit range); then the database checks [name], declared
    [nullable=False]. *)
Definition session_flush_equipment (id : Z) (loaded : Equipment) : M unit :=
  let! s := get_store in
  let row := default loaded (equipment s !! id) in
  if unchanged_or value_eqb sqlite_value (name loaded) (name row)
     && unchanged_or value_eqb sqlite_value (eq_description loaded) (eq_description row)
     && unchanged_or Z.eqb sqlite_integer (type_id loaded) (type_id row)
     && unchanged_or Z.eqb sqlite_integer (status_id loaded) (status_id row)
     && unchanged_or location_eqb sqlite_location (location_id loaded) (location_id row)
  then
    if unchanged_or value_eqb not_null (name loaded) (name row) then ret tt
    else raise integrity_error
  else raise overflow_error.

Section WithInt.

Variable int_of_str : string → option Z.

Definition create_equipment (data : gmap string value) : M Equipment :=
  let! type_id := py_int int_of_str (dict_get data "type_id") in
  let! status_id := py_int int_of_str (dict_get data "status_id") in
  let! location_id := py_int int_of_str (dict_get data "location_id") in
  let! equipment :=
    session_add_equipment (dict_get data "name") (dict_get data "description")
      type_id status_id location_id in
  commit ;;
  ret equipment.

Definition update_equipment (equipment_id : Z) (data : gmap string value)
    : M (option Equipment) :=
  let! found := Equipment_query_get equipment_id in
  match found with
  | None => ret None
  | Some loaded =>
      when_in data "name" (λ v, alter_equipment (with_name v) equipment_id) ;;
      when_in data "description" (λ v,
        alter_equipment (with_eq_description v) equipment_id) ;;
      when_in data "type_id" (λ v,
        let! n := py_int int_of_str v in alter_equipment (with_type_id n) equipment_id) ;;
      when_in data "status_id" (λ v,
        let! n := py_int int_of_str v in alter_equipment (with_status_id n) equipment_id) ;;
      when_in data "location_id" (λ v,
        let! n := py_int int_of_str v in
        alter_equipment (with_location_id n) equipment_id) ;;
      session_flush_equipment equipment_id loaded ;;
      commit ;;
      let! s := get_store in
      ret (Some (default loaded (equipment s !! equipment_id)))
  end.

End WithInt.

End EquipmentCrud.

(** ** services/user_service.py: create_user, login *)

Module Accounts.
Import UserService.

(** [str(v)], as an f-string renders a value. *)
Definition py_str (v : value) : string :=
  match v with
  | VNone => "None"
  | VInt z => NilZero.string_of_int (Z.to_int z)
  | VStr s => s
  end.

(** [User.query.filter_by(username=v)] *)
Definition with_username (v : value) (s : Store) : gmap Z User :=
  filter (λ kv, Is_true (value_eqb (username kv.2) v)) (users s).

(** [User.query.filter_by(username=v).first()] *)
Definition find_by_username (v : value) (s : Store) : option User :=
  head (map_to_list (with_username v s)).*2.

Definition username_taken_msg (v : value) : string :=
  "Username '" ++ py_str v ++ "' is already taken.".
Definition password_mandatory_msg : string :=
  "Password is mandatory for new user creation.".

(** A column declared with [default=d]: an attribute left at None is
    omitted from the INSERT, and the column takes [d]. *)
Definition column_default (d v : value) : value :=
  match v with
  | VNone => d
  | _ => v
  end.

(** [db.session.add(new_user)]; models.py declares [username],
    [password_hash], [first_name] and [last_name] with [nullable=False],
    and [role] with [default=Roles.TECHNICIAN]. *)
Definition session_add_user (username password_hash role first_name last_name
    email phone : value) : M User :=
  if not_null username && not_null password_hash && not_null first_name
     && not_null last_name then
    let! s := get_store in
    let row := mkUser (next_key (users s)) username password_hash
                 (column_default (VStr Roles.TECHNICIAN) role)
                 first_name last_name email phone in
    modify (with_users (insert (user_id row) row)) ;;
    ret row
  else raise integrity_error.

Section Passwords.

(** werkzeug's [generate_password_hash(password)], for the salt this call
    draws, and [check_password_hash(pwhash, password)]; both can raise on
    an argument that is not a string. *)
Variable generate_password_hash : value → res value.
Variable check_password_hash : value → value → res bool.

(** Lifts a library call into the monad. *)
Definition library {A} (r : res A) : M A := λ s, (r, s).

Definition create_user (data : gmap string value) : M User :=
  let! s := get_store in
  match find_by_username (dict_get data "username") s with
  | Some _ => raise (ValueError (username_taken_msg (dict_get data "username")))
  | None =>
      let role := default (VStr Roles.TECHNICIAN) (data !! "role") in
      let raw_password := dict_get data "password" in
      if negb (truthy raw_password) then raise (ValueError password_mandatory_msg)
      else
        let! hash := library (generate_password_hash raw_password) in
        let! new_user :=
          session_add_user (dict_get data "username") hash role
            (dict_get data "first_name") (dict_get data "last_name")
            (dict_get data "email") (dict_get data "phone") in
        commit ;;
        ret new_user
  end.


End Passwords.

End Accounts.

(** ** routes/user.py: manage_single_resource *)

Module UserRoutes.
Import UserService.

(** The methods the route declares; [OTHER] is any method that reaches
    the view and is none of them.  [input_data] is what
    [request.get_json()] gave: [None], or the parsed object, and
    [not input_data] holds for [None] and for the empty object. *)
Inductive http_method : Type := GET | PUT | DELETE | OTHER.

Inductive jval : Type :=
  | JValue (v : value)
  | JDict (d : gmap string value).

Record response : Type := mkResponse {
  body : gmap string jval;
  status : Z
}.

(** [jsonify({...}), status]; a bare [jsonify({...})] has status 200. *)
Definition jsonify (fields : list (string * jval)) (status : Z) : response :=
  mkResponse (list_to_map fields) status.

Definition error (msg : string) (status : Z) : response :=
  jsonify [("error", JValue (VStr msg))] status.

(** [str(e)] *)
Definition exn_message (e : exn) : string :=
  match e with
  | ValueError msg | TypeError msg | AttributeError msg | IntegrityError msg
  | OverflowError msg => msg
  end.

(** [try: ... except ValueError as e: return jsonify({'error': str(e)}), 400] *)
Definition except_ValueError (m : M response) : M response :=
  λ s, match m s with
       | (Raise (ValueError msg), s') => (Return (error msg 400), s')
       | r => r
       end.

Definition manage_single_resource (current_user : User) (method : http_method)
    (id : Z) (input_data : option (gmap string value)) : M response :=
  if match method with PUT | DELETE => true | _ => false end
     && negb (is_admin current_user) && negb (user_id current_user =? id)
  then ret (error "Unauthorized: Insufficient permissions" 403)
  else
    match method with
    | GET =>
        let! user := User_query_get id in
        match user with
        | None => ret (error "Resource not found" 404)
        | Some user => ret (jsonify [("user", JDict (to_dict user))] 200)
        end
    | PUT =>
        match input_data with
        | Some input_data =>
            if Nat.eqb (size input_data) 0
            then ret (error "Missing or invalid JSON payload" 400)
            else
              except_ValueError (
                let! updated_user := update_user id input_data in
                match updated_user with
                | None => ret (error "Update failed: User ID not found" 404)
                | Some updated_user =>
                    ret (jsonify
                           [("message", JValue (VStr "User profile updated successfully"));
                            ("user", JDict (to_dict updated_user))] 200)
                end)
        | None => ret (error "Missing or invalid JSON payload" 400)
        end
    | DELETE =>
        except_ValueError (
          let! success := delete_user id in
          if negb success then ret (error "Delete failed: User ID not found" 404)
          else ret (jsonify [("message", JValue (VStr "User permanently deleted"))] 200))
    | OTHER =>
        raise (TypeError "The view function did not return a valid response")
    end.

End UserRoutes.

(** ** Sample data

    One administrator and one technician; a device under repair and a
    working one; three logged interventions. *)

Module Sample.

Definition admin : User :=
  mkUser 1 (VStr "admin") (VStr "pbkdf2:sha256:admin") (VStr Roles.ADMIN)
         (VStr "Mario") (VStr "Rossi") (VStr "admin@school.it") VNone.
Definition tech : User :=
  mkUser 2 (VStr "tech1") (VStr "pbkdf2:sha256:tech") (VStr Roles.TECHNICIAN)
         (VStr "Luigi") (VStr "Verdi") VNone (VStr "3331234567").

Definition pc : Equipment :=
  mkEquipment 1 (VStr "PC-LAB1-01") (VStr "Desktop PC") 1 2 (Some 2).
Definition printer : Equipment :=
  mkEquipment 2 (VStr "PRN-REG-01") VNone 4 1 None.

Definition iv1 : Intervention :=
  mkIntervention 1 (mkDate 2024 1 15) (VStr "Waiting for a power supply") (Some 30)
                 1 (Some 2) (Some 3).
Definition iv2 : Intervention :=
  mkIntervention 2 (mkDate 2024 1 10) (VStr "Reinstalled the system") (Some 90)
                 1 (Some 2) (Some 1).
Definition iv3 : Intervention :=
  mkIntervention 3 (mkDate 2024 2 1) (VStr "Paper jam") None 2 None None.

Definition store : Store :=
  mkStore (<[1 := admin]> (<[2 := tech]> ∅))
          (<[1 := pc]> (<[2 := printer]> ∅))
          (<[1 := iv1]> (<[2 := iv2]> (<[3 := iv3]> ∅))).

End Sample.

(** ** More sample data: requests, a second administrator, stand-ins for
    the interpreter's and the password library's functions *)

Module Requests.



Definition no_int (_ : string) : option Z := None.
Definition no_date (_ : string) : option Date := None.

Definition toy_hash (v : value) : res value :=
  match v with
  | VStr p => Return (VStr ("sha:" ++ p))
  | _ => Raise (AttributeError "object has no attribute 'encode'")
  end.




(** POST /api/users/create *)
Definition new_technician : gmap string value :=
  list_to_map [("username", VStr "tech2"); ("password", VStr "s3cret");
               ("first_name", VStr "Paola"); ("last_name", VStr "Neri")].




End Requests.

(** ** Closed forms the proofs compare the services with *)

Module Closed.
Import UserService.

(** What the cascade loop does to the intervention table: one [delete]
    per listed row. *)
Definition drop_keys (l : list (Z * Intervention)) (m : gmap Z Intervention)
    : gmap Z Intervention :=
  foldl (λ m kv, delete kv.1 m) m l.

(** The store after [session_delete_user]. *)
Definition without_user (id : Z) (s : Store) : Store :=
  with_users (delete id) (with_interventions (fmap (detach_technician id)) s).

(** The store after the cascade loop of [delete_equipment]. *)
Definition after_loop (id : Z) (s : Store) : Store :=
  with_interventions (filter (λ kv, iv_equipment_id kv.2 ≠ id)) s.

(** [if key in data: user.<field> = data[key]] as a function on the row. *)
Definition apply_field (data : gmap string value) (key : string)
    (f : value → User → User) (u : User) : User :=
  match data !! key with
  | Some v => f v u
  | None => u
  end.

(** The five conditional assignments of [update_user], in order. *)
Definition apply_updates (data : gmap string value) (u : User) : User :=
  apply_field data "role" with_role
    (apply_field data "phone" with_phone
      (apply_field data "email" with_email
        (apply_field data "last_name" with_last_name
          (apply_field data "first_name" with_first_name u)))).

(** The assignments of [update_user] leave no name column null that was
    not null already. *)
Definition names_kept (data : gmap string value) (u : User) : bool :=
  unchanged_or value_eqb not_null (first_name u) (first_name (apply_updates data u))
  && unchanged_or value_eqb not_null (last_name u) (last_name (apply_updates data u)).

(** The two checks of [update_user] as conditions on the loaded user. *)
Definition demotion_blocked (data : gmap string value) (u : User) (s : Store) : bool :=
  match data !! "role" with
  | Some new_role =>
      is_admin u && negb (value_eqb new_role (VStr Roles.ADMIN)) && (count_admins s <=? 1)
  | None => false
  end.

Definition promotion_blocked (data : gmap string value) (u : User) : bool :=
  match data !! "role" with
  | Some new_role => is_technician u && value_eqb new_role (VStr Roles.ADMIN)
  | None => false
  end.

(** An administrator counts for one in [count_admins]. *)
Definition admin_weight (u : User) : Z := if is_admin u then 1 else 0.

End Closed.

(** ** Footprints

    Relations between the store before and after a call, used to say what
    a service method never touches. *)

Module Footprint.

(** Started in any store, [m] ends in a store related to it by [R],
    whether it returns or raises. *)
Definition keeps {A} (R : Store → Store → Prop) (m : M A) : Prop :=
  ∀ s, R s (m s).2.

(** The same keys, and every row equal to the old one up to [status_id]. *)
Definition status_only (t t' : gmap Z Equipment) : Prop :=
  ∀ k, match t !! k, t' !! k with
       | Some e, Some e' => e' = InterventionService.with_status_id (status_id e') e
       | None, None => True
       | _, _ => False
       end.

(** Every row but [id] is as before, and [id] is neither created nor
    removed. *)
Definition only_row {V} (id : Z) (t t' : gmap Z V) : Prop :=
  (∀ k, k ≠ id → t' !! k = t !! k) ∧ (is_Some (t' !! id) ↔ is_Some (t !! id)).

(** What [update_intervention] on row [id] may change. *)
Definition update_footprint (id : Z) (s s' : Store) : Prop :=
  users s' = users s ∧
  only_row id (interventions s) (interventions s') ∧
  status_only (equipment s) (equipment s').

(** What [create_intervention] may change: logged interventions stay as
    they are (rows can only be added). *)
Definition create_footprint (s s' : Store) : Prop :=
  users s' = users s ∧
  interventions s ⊆ interventions s' ∧
  status_only (equipment s) (equipment s').

(** What [update_equipment] on row [id] may change. *)
Definition equipment_footprint (id : Z) (s s' : Store) : Prop :=
  users s' = users s ∧ interventions s' = interventions s ∧
  only_row id (equipment s) (equipment s').

End Footprint.

(** ** Invariants of the user table *)

Module Invariants.

(** No two rows of the user table carry the same username. *)
Definition usernames_unique (s : Store) : Prop :=
  ∀ i j u v, users s !! i = Some u → users s !! j = Some v →
             username u = username v → i = j.

End Invariants.

(** * Properties *)

(** ** Running the service monad *)

Lemma bind_return {A B} (m : M A) (k : A → M B) (s s' : Store) (a : A) :
  m s = (Return a, s') → bind m k s = k a s'.
Proof. intros H. unfold bind. by rewrite H. Qed.

Lemma bind_raise {A B} (m : M A) (k : A → M B) (s s' : Store) (e : exn) :
  m s = (Raise e, s') → bind m k s = (Raise e, s').
Proof. intros H. unfold bind. by rewrite H. Qed.

Lemma when_in_absent (data : gmap string value) (key : string)
    (body : value → M unit) (s : Store) :
  data !! key = None → when_in data key body s = (Return tt, s).
Proof. intros H. unfold when_in. by rewrite H. Qed.

Lemma when_in_present (data : gmap string value) (key : string)
    (body : value → M unit) (v : value) (s : Store) :
  data !! key = Some v → when_in data key body s = body v s.
Proof. intros H. unfold when_in. by rewrite H. Qed.

Lemma value_eqb_refl (v : value) : value_eqb v v = true.
Proof. destruct v; cbn; [done|apply Z.eqb_refl|apply String.eqb_refl]. Qed.

(** ** The status-synchronisation rule *)

Module SyncRule.
Import InterventionService.

(** The three outcomes of the primary-key lookup. *)
Lemma query_get_found (s : Store) (id : Z) (e : Equipment) :
  equipment s !! id = Some e →
  Equipment_query_get id s = (Return (Some e), s).
Proof. intros He. unfold Equipment_query_get, bind, get_store, ret. by rewrite He. Qed.

Lemma query_get_missing (s : Store) (id : Z) :
  equipment s !! id = None → sqlite_integer id = true →
  Equipment_query_get id s = (Return None, s).
Proof.
  intros He Hid. unfold Equipment_query_get, bind, get_store, ret. by rewrite He, Hid.
Qed.

Lemma query_get_overflow (s : Store) (id : Z) :
  equipment s !! id = None → sqlite_integer id = false →
  Equipment_query_get id s = (Raise overflow_error, s).
Proof.
  intros He Hid. unfold Equipment_query_get, bind, get_store, raise. by rewrite He, Hid.
Qed.

(** The lookup never writes. *)
Lemma query_get_store (s : Store) (id : Z) :
  (Equipment_query_get id s).2 = s.
Proof.
  unfold Equipment_query_get, bind, get_store, ret, raise.
  destruct (equipment s !! id); [done|]. by destruct (sqlite_integer id).
Qed.

Lemma intervention_get_found (s : Store) (id : Z) (iv : Intervention) :
  interventions s !! id = Some iv →
  Intervention_query_get id s = (Return (Some iv), s).
Proof. intros Hiv. unfold Intervention_query_get, bind, get_store, ret. by rewrite Hiv. Qed.

(** The flush lets through a row whose description is as loaded, or not
    null. *)
Lemma flush_intervention_ok (id : Z) (loaded now : Intervention) (s : Store) :
  default loaded (interventions s !! id) = now →
  unchanged_or value_eqb not_null (description loaded) (description now) = true →
  session_flush_intervention id loaded s = (Return tt, s).
Proof.
  intros Hnow Hok. unfold session_flush_intervention, read_intervention, bind, get_store, ret.
  by rewrite Hnow, Hok.
Qed.

Lemma flush_intervention_store (id : Z) (loaded : Intervention) (s : Store) :
  (session_flush_intervention id loaded s).2 = s.
Proof.
  unfold session_flush_intervention, read_intervention, bind, get_store, ret, raise.
  by destruct (unchanged_or _ _ _ _).
Qed.

Lemma intervention_get_store (s : Store) (id : Z) :
  (Intervention_query_get id s).2 = s.
Proof.
  unfold Intervention_query_get, bind, get_store, ret, raise.
  destruct (interventions s !! id); [done|]. by destruct (sqlite_integer id).
Qed.

(** What one call does to a store in which the equipment exists. *)
Lemma update_status_cases (s : Store) (id o : Z) (e : Equipment) :
  equipment s !! id = Some e →
  _update_equipment_status id o s =
    if o =? OUTCOME_RESOLVED then
      (Return tt, with_equipment (alter (with_status_id STATUS_WORKING) id) s)
    else if o =? Z.lor OUTCOME_PENDING o then (Raise attribute_error, s)
    else (Return tt, s).
Proof.
  intros He. unfold _update_equipment_status.
  rewrite (bind_return _ _ _ _ _ (query_get_found s id e He)).
  unfold bind, get_store, ret.
  destruct (o =? OUTCOME_RESOLVED); [reflexivity|].
  unfold rule2_condition. destruct (o =? Z.lor OUTCOME_PENDING o); reflexivity.
Qed.

(** An id of the database's integer range that no row has. *)
Lemma update_status_missing (s : Store) (id o : Z) :
  equipment s !! id = None → sqlite_integer id = true →
  _update_equipment_status id o s = (Return tt, s).
Proof.
  intros He Hid. unfold _update_equipment_status.
  by rewrite (bind_return _ _ _ _ _ (query_get_missing s id He Hid)).
Qed.

(** An id outside that range: the lookup itself raises. *)
Lemma update_status_overflow (s : Store) (id o : Z) :
  equipment s !! id = None → sqlite_integer id = false →
  _update_equipment_status id o s = (Raise overflow_error, s).
Proof.
  intros He Hid. unfold _update_equipment_status.
  by rewrite (bind_raise _ _ _ _ _ (query_get_overflow s id He Hid)).
Qed.

(** Without a row under the id, the call writes nothing either way. *)
Lemma update_status_absent (s : Store) (id o : Z) :
  equipment s !! id = None →
  _update_equipment_status id o s =
    (if sqlite_integer id then Return tt else Raise overflow_error, s).
Proof.
  intros He. destruct (sqlite_integer id) eqn:Hid.
  - by apply update_status_missing.
  - by apply update_status_overflow.
Qed.

(** The outcome ids on which the second rule's condition raises are
    exactly those with the two low bits set. *)
Lemma raises_iff_low_bits (o : Z) :
  (o =? Z.lor OUTCOME_PENDING o) = (Z.land o 3 =? 3).
Proof.
  unfold OUTCOME_PENDING.
  apply eq_true_iff_eq. rewrite !Z.eqb_eq. split; intros H.
  - rewrite H at 1. rewrite Z.land_comm, Z.land_lor_distr_r.
    change (Z.land 3 3) with 3. rewrite (Z.land_comm 3 o).
    apply Z.bits_inj'. intros n Hn.
    rewrite Z.lor_spec, Z.land_spec.
    destruct (Z.testbit 3 n), (Z.testbit o n); reflexivity.
  - apply Z.bits_inj'. intros n Hn.
    rewrite Z.lor_spec.
    assert (Hb : Z.testbit (Z.land o 3) n = Z.testbit 3 n) by (by rewrite H).
    rewrite Z.land_spec in Hb.
    destruct (Z.testbit 3 n), (Z.testbit o n); simpl in *; congruence.
Qed.

(** On an existing row: PENDING raises, MONITORING changes nothing. *)
Lemma pending_raises (s : Store) (id : Z) (e : Equipment) :
  equipment s !! id = Some e →
  _update_equipment_status id OUTCOME_PENDING s = (Raise attribute_error, s).
Proof. intros He. by rewrite (update_status_cases s id _ e He). Qed.

Lemma monitoring_noop (s : Store) (id : Z) (e : Equipment) :
  equipment s !! id = Some e →
  _update_equipment_status id OUTCOME_MONITORING s = (Return tt, s).
Proof. intros He. by rewrite (update_status_cases s id _ e He). Qed.

(** A call changes nothing but the [equipment] table. *)
Lemma update_status_frame (s : Store) (id o : Z) :
  users (_update_equipment_status id o s).2 = users s ∧
  interventions (_update_equipment_status id o s).2 = interventions s.
Proof.
  destruct (equipment s !! id) as [e|] eqn:He.
  - rewrite (update_status_cases _ _ _ _ He).
    destruct (o =? _); [done|]. destruct (o =? _); done.
  - by rewrite update_status_absent.
Qed.

(** Running the rule again on the store the first call left reproduces
    both the result and the store of the first call. *)
Lemma update_status_twice (s : Store) (id o : Z) :
  _update_equipment_status id o (_update_equipment_status id o s).2 =
  _update_equipment_status id o s.
Proof.
  destruct (equipment s !! id) as [e|] eqn:He.
  - rewrite (update_status_cases s _ _ _ He).
    destruct (o =? OUTCOME_RESOLVED) eqn:H1.
    + set (s' := with_equipment _ s).
      assert (He' : equipment s' !! id = Some (with_status_id STATUS_WORKING e)).
      { unfold s'. simpl. rewrite lookup_alter_eq, He. done. }
      rewrite (update_status_cases s' _ _ _ He'), H1.
      f_equal. unfold s', with_equipment. simpl. f_equal.
      rewrite alter_alter_eq. apply alter_ext. intros [] _. reflexivity.
    + destruct (o =? Z.lor _ _) eqn:H2; simpl;
        by rewrite (update_status_cases s _ _ _ He), H1, H2.
  - rewrite (update_status_absent s) by done. simpl.
    by rewrite update_status_absent.
Qed.

End SyncRule.

Section SyncRuleClaims.
Import InterventionService SyncRule.

(** C5.  On an existing equipment row the rule with outcome RESOLVED (1)
    returns normally and the row's [status_id] is WORKING (1)
    afterwards; the rest of the row is as before. *)
Theorem C5_resolved_sets_working (s : Store) (id : Z) (e : Equipment) :
  equipment s !! id = Some e →
  ∃ s', _update_equipment_status id OUTCOME_RESOLVED s = (Return tt, s') ∧
        equipment s' !! id = Some (with_status_id STATUS_WORKING e) ∧
        status_id <$> equipment s' !! id = Some 1.
Proof.
  intros He. eexists. rewrite (update_status_cases s id _ e He), Z.eqb_refl.
  split; [reflexivity|]. unfold with_equipment. cbn [equipment].
  rewrite lookup_alter_eq, He. done.
Qed.

Lemma C5_resolved_sets_working_witness :
  ∃ s', _update_equipment_status 1 OUTCOME_RESOLVED Sample.store = (Return tt, s') ∧
        equipment s' !! 1 = Some (with_status_id STATUS_WORKING Sample.pc) ∧
        status_id <$> equipment s' !! 1 = Some 1.
Proof. apply (C5_resolved_sets_working Sample.store 1 Sample.pc). reflexivity. Defined.

(** C1.  The rule on the working printer of the sample store: with
    outcome PENDING (3) the call raises AttributeError, with outcome
    MONITORING (2) it returns normally, and in both cases the store is
    untouched, so [status_id] is still WORKING (1), not UNDER_REPAIR (2). *)
Theorem C1_pending_monitoring_leave_status :
  _update_equipment_status 2 OUTCOME_PENDING Sample.store
    = (Raise attribute_error, Sample.store) ∧
  _update_equipment_status 2 OUTCOME_MONITORING Sample.store
    = (Return tt, Sample.store) ∧
  status_id <$> equipment Sample.store !! 2 = Some STATUS_WORKING ∧
  STATUS_WORKING ≠ STATUS_UNDER_REPAIR.
Proof.
  assert (He : equipment Sample.store !! 2 = Some Sample.printer) by reflexivity.
  rewrite !(update_status_cases _ 2 _ _ He), He. done.
Qed.

(** C7.  Two calls in succession with outcome PENDING (3) on the working
    printer of the sample store: the second call raises AttributeError
    (as the first did). *)
Theorem C7_second_call_raises :
  let first := _update_equipment_status 2 OUTCOME_PENDING Sample.store in
  let second := _update_equipment_status 2 OUTCOME_PENDING first.2 in
  first.1 = Raise attribute_error ∧ second.1 = Raise attribute_error ∧
  second.2 = first.2.
Proof.
  intros first second. unfold second. unfold first.
  rewrite update_status_twice.
  assert (He : equipment Sample.store !! 2 = Some Sample.printer) by reflexivity.
  rewrite (update_status_cases _ 2 _ _ He). done.
Qed.

(** C8, as stated, fails at an id the database cannot hold: 2^63 resolves
    to no row of the sample store, yet the rule with outcome MONITORING
    (2) does not return; the lookup raises OverflowError.  Nothing is
    written. *)
Lemma C8_id_out_of_range_raises :
  equipment Sample.store !! (2 ^ 63) = None ∧
  sqlite_integer (2 ^ 63) = false ∧
  _update_equipment_status (2 ^ 63) OUTCOME_MONITORING Sample.store
    = (Raise overflow_error, Sample.store) ∧
  failed (_update_equipment_status (2 ^ 63) OUTCOME_MONITORING Sample.store).1 = true.
Proof.
  assert (He : equipment Sample.store !! (2 ^ 63) = None) by reflexivity.
  assert (Hid : sqlite_integer (2 ^ 63) = false) by reflexivity.
  rewrite (update_status_overflow _ _ _ He Hid). done.
Qed.

(** C8.  When the equipment id is an integer of the database's signed
    64-bit range and resolves to no row, the rule returns normally for
    every outcome id and the whole store, every equipment row included,
    is exactly as before. *)
Theorem C8_missing_equipment_noop (s : Store) (id o : Z) :
  sqlite_integer id = true →
  equipment s !! id = None →
  _update_equipment_status id o s = (Return tt, s).
Proof. intros Hid He. by apply update_status_missing. Qed.

Lemma C8_missing_equipment_noop_witness :
  sqlite_integer 7 = true ∧
  equipment Sample.store !! 7 = None ∧
  _update_equipment_status 7 OUTCOME_PENDING Sample.store = (Return tt, Sample.store).
Proof.
  split; [reflexivity|]. split; [reflexivity|].
  apply (C8_missing_equipment_noop Sample.store 7 OUTCOME_PENDING); reflexivity.
Defined.

End SyncRuleClaims.

(** ** Cascade delete of equipment *)

Module Cascade.
Import InterventionService EquipmentService Closed.

(** The loop issues one delete per listed row and cannot raise. *)
Lemma for_each_delete (l : list (Z * Intervention)) (s : Store) :
  for_each l (λ intervention, session_delete_intervention intervention.1) s =
  (Return tt, with_interventions (drop_keys l) s).
Proof.
  revert s. induction l as [|kv l IH]; intros s.
  - by destruct s.
  - cbn [for_each]. unfold bind at 1.
    unfold session_delete_intervention at 1, modify at 1.
    rewrite IH. reflexivity.
Qed.

Lemma lookup_drop_keys (l : list (Z * Intervention)) (m : gmap Z Intervention) (k : Z) :
  drop_keys l m !! k = if decide (k ∈ l.*1) then None else m !! k.
Proof.
  revert m. induction l as [|[k' v] l IH]; intros m.
  - cbn. rewrite decide_False; [done|]. apply not_elem_of_nil.
  - cbn [drop_keys foldl fmap list_fmap fst]. fold (drop_keys l (delete k' m)).
    rewrite IH. destruct (decide (k = k')) as [->|Hne].
    + rewrite lookup_delete_eq.
      rewrite (decide_True (P := k' ∈ k' :: l.*1)) by apply list_elem_of_here.
      by case_decide.
    + rewrite lookup_delete_ne by done.
      destruct (decide (k ∈ l.*1)) as [Hin|Hnin].
      * rewrite decide_True; [done|]. by apply list_elem_of_further.
      * rewrite decide_False; [done|]. intros [?|?]%elem_of_cons; done.
Qed.

(** Deleting every row that references [id] leaves exactly the rows that
    do not. *)
Lemma drop_referencing (id : Z) (m : gmap Z Intervention) :
  drop_keys (map_to_list (filter (λ kv, iv_equipment_id kv.2 = id) m)) m =
  filter (λ kv, iv_equipment_id kv.2 ≠ id) m.
Proof.
  apply map_eq. intros k. rewrite lookup_drop_keys.
  case_decide as Hk.
  - symmetry. apply map_lookup_filter_None.
    apply list_elem_of_fmap in Hk as [[k' v] [-> Hin]].
    apply elem_of_map_to_list, map_lookup_filter_Some in Hin as [Hm Hp].
    right. intros x Hx Hn. cbn in Hx, Hp. rewrite Hm in Hx. injection Hx as <-.
    by apply Hn.
  - destruct (m !! k) as [v|] eqn:Hm.
    + symmetry. apply map_lookup_filter_Some. split; [done|].
      simpl. intros Heq. apply Hk.
      apply list_elem_of_fmap. exists (k, v). split; [done|].
      apply elem_of_map_to_list, map_lookup_filter_Some. done.
    + symmetry. apply map_lookup_filter_None. by left.
Qed.

Lemma none_left (id : Z) (m : gmap Z Intervention) :
  filter (λ kv : Z * Intervention, iv_equipment_id kv.2 = id)
         (filter (λ kv, iv_equipment_id kv.2 ≠ id) m) = ∅.
Proof.
  apply map_eq. intros k. rewrite lookup_empty.
  apply map_lookup_filter_None. right. intros x Hx Hp.
  apply map_lookup_filter_Some in Hx as [_ Hn]. done.
Qed.

Lemma size_split (id : Z) (m : gmap Z Intervention) :
  (size (filter (λ kv, iv_equipment_id kv.2 ≠ id) m) +
   size (filter (λ kv : Z * Intervention, iv_equipment_id kv.2 = id) m))%nat = size m.
Proof.
  rewrite <- (map_filter_union_complement
    (λ kv : Z * Intervention, iv_equipment_id kv.2 = id) m) at 3.
  rewrite map_size_disj_union by apply map_disjoint_filter_complement.
  lia.
Qed.

Lemma loop_result (id : Z) (s : Store) :
  for_each (map_to_list (interventions_of id s))
           (λ intervention, session_delete_intervention intervention.1) s =
  (Return tt, after_loop id s).
Proof.
  rewrite for_each_delete. unfold after_loop, with_interventions, interventions_of.
  by rewrite drop_referencing.
Qed.

Lemma delete_equipment_existing (s : Store) (id : Z) (e : Equipment) :
  equipment s !! id = Some e →
  delete_equipment id s = (Return true, with_equipment (delete id) (after_loop id s)).
Proof.
  intros He. unfold delete_equipment, Equipment_query_get.
  unfold bind at 1. unfold bind at 1. unfold get_store at 1. unfold ret at 1.
  rewrite He. unfold Intervention_filter_by_equipment_id.
  unfold bind at 1. unfold bind at 1. unfold get_store at 1. unfold ret at 1.
  unfold bind at 1. rewrite loop_result.
  unfold bind at 1. unfold session_delete_equipment.
  unfold bind at 1. unfold get_store at 1.
  replace (map_to_list (interventions_of id (after_loop id s))) with (@nil (Z * Intervention)).
  - reflexivity.
  - symmetry. apply map_to_list_empty_iff. apply none_left.
Qed.

End Cascade.

Section CascadeClaims.
Import InterventionService EquipmentService Closed SyncRule Cascade.

(** C9, as stated, fails in its last part at an id the database cannot
    hold: 2^63 resolves to no equipment of the sample store, yet
    [delete_equipment] does not return False; its lookup raises
    OverflowError.  Nothing is deleted. *)
Lemma C9_id_out_of_range_raises :
  equipment Sample.store !! (2 ^ 63) = None ∧
  sqlite_integer (2 ^ 63) = false ∧
  delete_equipment (2 ^ 63) Sample.store = (Raise overflow_error, Sample.store) ∧
  delete_equipment (2 ^ 63) Sample.store ≠ (Return false, Sample.store).
Proof.
  assert (He : equipment Sample.store !! (2 ^ 63) = None) by reflexivity.
  assert (Hid : sqlite_integer (2 ^ 63) = false) by reflexivity.
  unfold delete_equipment.
  rewrite (bind_raise _ _ _ _ _ (query_get_overflow _ _ He Hid)). done.
Qed.

(** C9.  For an existing equipment row [delete_equipment] returns True
    without raising: its loop first deletes every referencing
    intervention and nothing else, leaving the equipment row in place
    and no reference to it; then the row itself goes.  Afterwards no
    intervention references the id, the intervention table has shrunk by
    exactly the M rows that did, and the other rows and tables are as
    before.  For an id of the database's signed 64-bit integer range that
    resolves to no equipment it returns False and the store is
    unchanged. *)
Theorem C9_delete_equipment_cascades (s : Store) (id : Z) :
  (∀ e, equipment s !! id = Some e →
    ∃ s1 s',
      for_each (map_to_list (interventions_of id s))
               (λ intervention, session_delete_intervention intervention.1) s
        = (Return tt, s1) ∧
      equipment s1 = equipment s ∧ interventions_of id s1 = ∅ ∧
      session_delete_equipment id s1 = (Return tt, s') ∧
      delete_equipment id s = (Return true, s') ∧
      equipment s' = delete id (equipment s) ∧
      interventions s' = filter (λ kv, iv_equipment_id kv.2 ≠ id) (interventions s) ∧
      interventions_of id s' = ∅ ∧
      (size (interventions s') + size (interventions_of id s))%nat
        = size (interventions s) ∧
      users s' = users s) ∧
  (sqlite_integer id = true → equipment s !! id = None →
    delete_equipment id s = (Return false, s)).
Proof.
  split.
  - intros e He. exists (after_loop id s), (with_equipment (delete id) (after_loop id s)).
    split; [apply loop_result|].
    split; [reflexivity|].
    split; [apply none_left|].
    split.
    { unfold session_delete_equipment, bind, get_store.
      replace (map_to_list (interventions_of id (after_loop id s)))
        with (@nil (Z * Intervention)); [reflexivity|].
      symmetry. apply map_to_list_empty_iff, none_left. }
    split; [by apply delete_equipment_existing with e|].
    split; [reflexivity|]. split; [reflexivity|].
    split; [apply none_left|].
    split; [apply size_split|reflexivity].
  - intros Hid He. unfold delete_equipment.
    by rewrite (bind_return _ _ _ _ _ (query_get_missing s id He Hid)).
Qed.

Lemma C9_delete_equipment_cascades_witness :
  (∃ s1 s',
      for_each (map_to_list (interventions_of 1 Sample.store))
               (λ intervention, session_delete_intervention intervention.1) Sample.store
        = (Return tt, s1) ∧
      equipment s1 = equipment Sample.store ∧ interventions_of 1 s1 = ∅ ∧
      session_delete_equipment 1 s1 = (Return tt, s') ∧
      delete_equipment 1 Sample.store = (Return true, s') ∧
      equipment s' = delete 1 (equipment Sample.store) ∧
      interventions s' = filter (λ kv, iv_equipment_id kv.2 ≠ 1) (interventions Sample.store) ∧
      interventions_of 1 s' = ∅ ∧
      (size (interventions s') + size (interventions_of 1 Sample.store))%nat
        = size (interventions Sample.store) ∧
      users s' = users Sample.store) ∧
  delete_equipment 7 Sample.store = (Return false, Sample.store).
Proof.
  split.
  - apply (proj1 (C9_delete_equipment_cascades Sample.store 1) Sample.pc). reflexivity.
  - apply (proj2 (C9_delete_equipment_cascades Sample.store 7)); reflexivity.
Defined.

(** The sample store run through [delete_equipment]: interventions 1 and
    2 go with the PC, intervention 3 and the printer stay. *)
Example delete_pc :
  delete_equipment 1 Sample.store =
  (Return true, mkStore (users Sample.store) (<[2 := Sample.printer]> ∅)
                        (<[3 := Sample.iv3]> ∅)).
Proof. vm_compute. reflexivity. Qed.

End CascadeClaims.

(** ** User safety checks *)

Module UserSafety.
Import UserService Closed.

Lemma value_eqb_eq (a b : value) : value_eqb a b = true ↔ a = b.
Proof.
  destruct a, b; simpl; try (split; [discriminate|congruence]).
  - done.
  - rewrite Z.eqb_eq. split; congruence.
  - rewrite String.eqb_eq. split; congruence.
Qed.

Lemma value_eqb_neq (a b : value) : a ≠ b → value_eqb a b = false.
Proof.
  intros Hne. destruct (value_eqb a b) eqn:E; [|done].
  by apply value_eqb_eq in E.
Qed.

Lemma when_in_alter (data : gmap string value) (key : string)
    (f : value → User → User) (id : Z) (s : Store) :
  when_in data key (λ v, alter_user (f v) id) s =
  (Return tt, with_users (alter (apply_field data key f) id) s).
Proof.
  unfold when_in, apply_field. destruct (data !! key); [reflexivity|].
  unfold ret, with_users. rewrite alter_id by done. by destruct s.
Qed.

(** The assignments and the commit of [update_user], once both checks
    have let the call through. *)
Lemma assignments (id : Z) (data : gmap string value) (u : User) (s : Store) :
  users s !! id = Some u →
  (when_in data "first_name" (set_first_name id) ;;
   when_in data "last_name" (set_last_name id) ;;
   when_in data "email" (set_email id) ;;
   when_in data "phone" (set_phone id) ;;
   when_in data "role" (set_role id) ;;
   session_flush_user id u ;;
   commit ;;
   let! s := get_store in
   ret (Some (default u (users s !! id))))%py s =
  (if names_kept data u then Return (Some (apply_updates data u))
   else Raise integrity_error,
   with_users (alter (apply_updates data) id) s).
Proof.
  intros Hu.
  unfold set_first_name, set_last_name, set_email, set_phone, set_role.
  do 5 (erewrite bind_return by apply when_in_alter).
  match goal with |- _ ?s1 = _ =>
    assert (Hs1 : s1 = with_users (alter (apply_updates data) id) s)
  end.
  { unfold with_users. cbn [users equipment interventions].
    by rewrite !alter_alter_eq. }
  rewrite Hs1. clear Hs1.
  assert (Hrow : users (with_users (alter (apply_updates data) id) s) !! id
                 = Some (apply_updates data u)).
  { cbn [with_users users]. by rewrite lookup_alter_eq, Hu. }
  unfold session_flush_user, commit, get_store, ret, raise, bind, names_kept.
  rewrite Hrow. cbn [from_option]. unfold Datatypes.id.
  destruct (_ && _); [|reflexivity]. by rewrite Hrow.
Qed.

(** [update_user] on an existing user, in closed form. *)
Lemma update_user_existing (id : Z) (data : gmap string value) (u : User) (s : Store) :
  users s !! id = Some u →
  update_user id data s =
    if demotion_blocked data u s then (Raise (ValueError last_admin_demotion_msg), s)
    else if promotion_blocked data u then (Raise (ValueError promotion_denied_msg), s)
    else (if names_kept data u then Return (Some (apply_updates data u))
          else Raise integrity_error,
          with_users (alter (apply_updates data) id) s).
Proof.
  intros Hu. unfold update_user, User_query_get.
  unfold bind at 1. unfold bind at 1. unfold get_store at 1. unfold ret at 1.
  rewrite Hu. unfold demotion_blocked, promotion_blocked.
  destruct (data !! "role") as [new_role|] eqn:Hr.
  - destruct (is_admin u) eqn:Ha; cbn [when andb].
    + destruct (value_eqb new_role (VStr Roles.ADMIN)) eqn:Hn; cbn [when negb andb].
      * unfold bind at 1. unfold ret at 1.
        destruct (is_technician u); cbn [when andb].
        -- unfold bind at 1. unfold raise at 1. reflexivity.
        -- unfold bind at 1. unfold ret at 1. by apply assignments.
      * unfold bind at 1. unfold User_query_count_admins.
        unfold bind at 1. unfold bind at 1. unfold get_store at 1. unfold ret at 1.
        destruct (count_admins s <=? 1); cbn [when].
        -- reflexivity.
        -- assert (Ht : is_technician u = false).
           { unfold is_admin, is_technician in *. apply value_eqb_eq in Ha.
             rewrite Ha. reflexivity. }
           rewrite Ht. cbn [when andb]. unfold ret at 1.
           unfold bind at 1. unfold ret at 1. by apply assignments.
    + unfold bind at 1. unfold ret at 1.
      destruct (is_technician u); cbn [when andb].
      * destruct (value_eqb new_role (VStr Roles.ADMIN)); cbn [when].
        -- reflexivity.
        -- unfold bind at 1. unfold ret at 1. by apply assignments.
      * unfold bind at 1. unfold ret at 1. by apply assignments.
  - unfold bind at 1. unfold ret at 1. unfold bind at 1. unfold ret at 1.
    by apply assignments.
Qed.

Lemma update_user_missing (id : Z) (data : gmap string value) (s : Store) :
  users s !! id = None → update_user id data s = (Return None, s).
Proof.
  intros Hu. unfold update_user, User_query_get, bind, get_store, ret. by rewrite Hu.
Qed.

(** [delete_user] in closed form. *)
Lemma delete_user_existing (id : Z) (u : User) (s : Store) :
  users s !! id = Some u →
  delete_user id s =
    if is_admin u && (count_admins s <=? 1)
    then (Raise (ValueError last_admin_deletion_msg), s)
    else (Return true, without_user id s).
Proof.
  intros Hu. unfold delete_user, User_query_get.
  unfold bind at 1. unfold bind at 1. unfold get_store at 1. unfold ret at 1.
  rewrite Hu. destruct (is_admin u); cbn [when andb].
  - unfold bind at 1. unfold User_query_count_admins.
    unfold bind at 1. unfold bind at 1. unfold get_store at 1. unfold ret at 1.
    destruct (count_admins s <=? 1); reflexivity.
  - reflexivity.
Qed.

Lemma delete_user_missing (id : Z) (s : Store) :
  users s !! id = None → delete_user id s = (Return false, s).
Proof.
  intros Hu. unfold delete_user, User_query_get, bind, get_store, ret. by rewrite Hu.
Qed.

Lemma role_apply_updates (data : gmap string value) (u : User) :
  role (apply_updates data u) = default (role u) (data !! "role").
Proof.
  unfold apply_updates, apply_field.
  destruct (data !! "role"), (data !! "phone"), (data !! "email"),
    (data !! "last_name"), (data !! "first_name"); reflexivity.
Qed.

(** *** Counting administrators *)

Lemma admins_lookup (s : Store) (id : Z) (u : User) :
  users s !! id = Some u →
  admins s !! id = if is_admin u then Some u else None.
Proof.
  intros Hu. unfold admins. destruct (is_admin u) eqn:Ha.
  - apply map_lookup_filter_Some. split; [done|]. cbn. by rewrite Ha.
  - apply map_lookup_filter_None. right. intros x Hx. cbn.
    rewrite Hu in Hx. injection Hx as <-. rewrite Ha. intros [].
Qed.

Lemma admin_counted (s : Store) (id : Z) (u : User) :
  users s !! id = Some u → is_admin u = true → 1 ≤ count_admins s.
Proof.
  intros Hu Ha. unfold count_admins.
  assert (Hl : admins s !! id = Some u) by (by rewrite (admins_lookup s id u Hu), Ha).
  assert (size (admins s) ≠ 0%nat); [|lia].
  apply map_size_ne_0_lookup_2 with id. by eexists.
Qed.

Lemma count_admins_alter (f : User → User) (s : Store) (id : Z) (u : User) :
  users s !! id = Some u →
  count_admins (with_users (alter f id) s) =
  count_admins s - admin_weight u + admin_weight (f u).
Proof.
  intros Hu. pose proof (admins_lookup s id u Hu) as Hl.
  pose proof (admin_counted s id u Hu) as Hc.
  unfold count_admins, admins, admin_weight, with_users in *. cbn [users] in *.
  rewrite (alter_alt_Some _ _ _ _ Hu), map_filter_insert.
  case_decide as Hf; cbn in Hf.
  - destruct (is_admin (f u)); [|done].
    rewrite map_size_insert, Hl. destruct (is_admin u); cbn; lia.
  - destruct (is_admin (f u)); [done|].
    rewrite map_filter_delete, map_size_delete, Hl.
    destruct (is_admin u); cbn; [|lia]. specialize (Hc eq_refl). lia.
Qed.

Lemma count_admins_delete (s : Store) (id : Z) (u : User) :
  users s !! id = Some u →
  count_admins (without_user id s) = count_admins s - admin_weight u.
Proof.
  intros Hu. pose proof (admins_lookup s id u Hu) as Hl.
  pose proof (admin_counted s id u Hu) as Hc.
  unfold count_admins, admins, admin_weight, without_user, with_users, with_interventions
    in *.
  cbn [users] in *.
  rewrite map_filter_delete, map_size_delete, Hl.
  destruct (is_admin u); cbn; [|lia]. specialize (Hc eq_refl). lia.
Qed.

(** Neither operation takes the last administrator away. *)
Lemma update_user_keeps_admin (id : Z) (data : gmap string value) (s : Store) :
  1 ≤ count_admins s → 1 ≤ count_admins (update_user id data s).2.
Proof.
  intros Hc. destruct (users s !! id) as [u|] eqn:Hu.
  - rewrite (update_user_existing id data u s Hu).
    destruct (demotion_blocked data u s) eqn:Hd; [done|].
    destruct (promotion_blocked data u); [done|]. cbn [snd].
    rewrite (count_admins_alter _ s id u Hu). unfold admin_weight.
    unfold is_admin at 2. rewrite role_apply_updates.
    unfold demotion_blocked in Hd.
    destruct (data !! "role") as [r|]; cbn [from_option]; unfold Datatypes.id.
    + fold (is_admin u) in *. destruct (is_admin u); cbn [andb] in Hd.
      * destruct (value_eqb r (VStr Roles.ADMIN)); cbn [negb andb] in Hd; [lia|].
        apply Z.leb_gt in Hd. lia.
      * destruct (value_eqb r (VStr Roles.ADMIN)); lia.
    + fold (is_admin u). destruct (is_admin u); lia.
  - by rewrite update_user_missing.
Qed.

Lemma delete_user_keeps_admin (id : Z) (s : Store) :
  1 ≤ count_admins s → 1 ≤ count_admins (delete_user id s).2.
Proof.
  intros Hc. destruct (users s !! id) as [u|] eqn:Hu.
  - rewrite (delete_user_existing id u s Hu).
    destruct (is_admin u) eqn:Ha; cbn [andb].
    + destruct (count_admins s <=? 1) eqn:Hle; [done|]. cbn [snd].
      rewrite (count_admins_delete s id u Hu). unfold admin_weight. rewrite Ha.
      apply Z.leb_gt in Hle. lia.
    + cbn [snd]. rewrite (count_admins_delete s id u Hu). unfold admin_weight.
      rewrite Ha. lia.
  - by rewrite delete_user_missing.
Qed.

End UserSafety.

Section UserClaims.
Import UserService Closed UserSafety.

(** C2.  For an administrator [u] in a store with at most one
    administrator: [update_user] with a requested role other than admin
    raises ValueError "Cannot change role: This is the only Administrator
    left." and [delete_user] raises ValueError "Cannot delete user: This is
    the only Administrator left in the system."; in both cases the store
    is exactly as before, so [u] is still there, unchanged.  And from any
    store with at least one administrator, neither operation, whatever its
    arguments and whether it raises or not, leaves a store with none. *)
Theorem C2_last_admin_protected :
  (∀ (s : Store) (id : Z) (u : User),
      users s !! id = Some u → role u = VStr Roles.ADMIN → count_admins s ≤ 1 →
      (∀ data new_role,
          data !! "role" = Some new_role → new_role ≠ VStr Roles.ADMIN →
          update_user id data s = (Raise (ValueError last_admin_demotion_msg), s)) ∧
      delete_user id s = (Raise (ValueError last_admin_deletion_msg), s)) ∧
  (∀ (s : Store) (id : Z) (data : gmap string value),
      1 ≤ count_admins s →
      1 ≤ count_admins (update_user id data s).2 ∧
      1 ≤ count_admins (delete_user id s).2).
Proof.
  split.
  - intros s id u Hu Hr Hc.
    assert (Ha : is_admin u = true) by (unfold is_admin; by rewrite Hr).
    apply Z.leb_le in Hc. split.
    + intros data new_role Hd Hn.
      rewrite (update_user_existing id data u s Hu).
      unfold demotion_blocked. rewrite Hd, Ha, Hc, (value_eqb_neq _ _ Hn). reflexivity.
    + rewrite (delete_user_existing id u s Hu), Ha, Hc. reflexivity.
  - intros s id data Hc. split.
    + by apply update_user_keeps_admin.
    + by apply delete_user_keeps_admin.
Qed.

Lemma C2_last_admin_protected_witness :
  update_user 1 {[ "role" := VStr Roles.TECHNICIAN ]} Sample.store
    = (Raise (ValueError last_admin_demotion_msg), Sample.store) ∧
  delete_user 1 Sample.store
    = (Raise (ValueError last_admin_deletion_msg), Sample.store) ∧
  1 ≤ count_admins (update_user 2 {[ "role" := VStr "guest" ]} Sample.store).2 ∧
  1 ≤ count_admins (delete_user 2 Sample.store).2.
Proof.
  assert (Hu : users Sample.store !! 1 = Some Sample.admin) by reflexivity.
  assert (Hr : role Sample.admin = VStr Roles.ADMIN) by reflexivity.
  assert (Hc : count_admins Sample.store ≤ 1) by (vm_compute; discriminate).
  assert (H1 : 1 ≤ count_admins Sample.store) by (vm_compute; discriminate).
  split; [|split].
  - apply (proj1 (proj1 C2_last_admin_protected Sample.store 1 Sample.admin Hu Hr Hc)
             {[ "role" := VStr Roles.TECHNICIAN ]} (VStr Roles.TECHNICIAN)).
    + reflexivity.
    + discriminate.
  - apply (proj2 (proj1 C2_last_admin_protected Sample.store 1 Sample.admin Hu Hr Hc)).
  - apply (proj2 C2_last_admin_protected Sample.store 2 {[ "role" := VStr "guest" ]} H1).
Defined.

(** C3.  For a technician [u] and a request whose role is admin,
    [update_user] raises ValueError "Operation Forbidden: A Technician
    cannot be promoted to Administrator." whatever the number of
    administrators, and the store is exactly as before: [u] is still a
    technician. *)
Theorem C3_promotion_forbidden (s : Store) (id : Z) (u : User)
    (data : gmap string value) :
  users s !! id = Some u → role u = VStr Roles.TECHNICIAN →
  data !! "role" = Some (VStr Roles.ADMIN) →
  update_user id data s = (Raise (ValueError promotion_denied_msg), s) ∧
  role <$> users (update_user id data s).2 !! id = Some (VStr Roles.TECHNICIAN).
Proof.
  intros Hu Hr Hd.
  assert (Hres : update_user id data s = (Raise (ValueError promotion_denied_msg), s)).
  { rewrite (update_user_existing id data u s Hu).
    unfold demotion_blocked, promotion_blocked, is_admin, is_technician.
    rewrite Hd, Hr. reflexivity. }
  split; [exact Hres|]. rewrite Hres. cbn [snd]. by rewrite Hu, <- Hr.
Qed.

Lemma C3_promotion_forbidden_witness :
  update_user 2 {[ "role" := VStr Roles.ADMIN ]} Sample.store
    = (Raise (ValueError promotion_denied_msg), Sample.store) ∧
  role <$> users (update_user 2 {[ "role" := VStr Roles.ADMIN ]} Sample.store).2 !! 2
    = Some (VStr Roles.TECHNICIAN).
Proof.
  apply (C3_promotion_forbidden Sample.store 2 Sample.tech {[ "role" := VStr Roles.ADMIN ]});
    reflexivity.
Defined.

End UserClaims.

(** ** Serialisation of users *)

Section ToDictClaims.

(** C10.  The dictionary [to_dict] returns has no key "password_hash", and
    two users that agree on user_id, username, role, first_name,
    last_name, email and phone get the same dictionary whatever their
    password hashes are. *)
Theorem C10_to_dict_omits_password_hash (u : User) :
  to_dict u !! "password_hash" = None ∧
  ∀ u' : User,
    user_id u = user_id u' → username u = username u' → role u = role u' →
    first_name u = first_name u' → last_name u = last_name u' →
    email u = email u' → phone u = phone u' →
    to_dict u = to_dict u'.
Proof.
  split.
  - unfold to_dict. cbn [list_to_map foldr uncurry].
    rewrite !lookup_insert_ne by discriminate. apply lookup_empty.
  - intros u' H1 H2 H3 H4 H5 H6 H7. unfold to_dict.
    by rewrite H1, H2, H3, H4, H5, H6, H7.
Qed.

Lemma C10_to_dict_omits_password_hash_witness :
  to_dict Sample.admin !! "password_hash" = None ∧
  to_dict Sample.admin = to_dict (set_password_hash Sample.admin (VStr "another hash")).
Proof.
  split.
  - apply (proj1 (C10_to_dict_omits_password_hash Sample.admin)).
  - apply (proj2 (C10_to_dict_omits_password_hash Sample.admin)
             (set_password_hash Sample.admin (VStr "another hash"))); reflexivity.
Defined.

(** Changing the stored hash never shows in the dictionary. *)
Lemma to_dict_set_password_hash (u : User) (h : value) :
  to_dict (set_password_hash u h) = to_dict u.
Proof. reflexivity. Qed.

End ToDictClaims.

(** ** The request gate *)

Section GateClaims.
Import App.

(** An authenticated request to GET /api/users/me passes the hook and is
    answered by the view. *)
Lemma users_me_authenticated (u : User) :
  request_users_me (Some u) =
  Jsonify (<["authenticated" := JBool true]> {[ "user" := JObject (to_dict u) ]}) 200.
Proof. reflexivity. Qed.

(** C4.  The view of GET /api/users/me is registered without the public
    marker, so for an anonymous requester the before-request hook answers
    with the login manager's redirect and the view, which would have
    answered 200 with authenticated = False, is never reached; the login
    endpoint next to it carries the marker and passes. *)
Theorem C4_users_me_not_public :
  is_public <$> view_functions !! "user.get_current_user_status" = Some None ∧
  global_security_check (Some "user.get_current_user_status") None = Some unauthorized ∧
  request_users_me None = Redirect "web.view_login_form" ∧
  get_current_user_status None = Jsonify {[ "authenticated" := JBool false ]} 200 ∧
  global_security_check (Some "user.login_api") None = None.
Proof. repeat split; vm_compute; reflexivity. Qed.

End GateClaims.

(** ** Partial updates of an intervention *)

Section UpdateInterventionClaims.
Import InterventionService SyncRule.

Variable int_of_str : string → option Z.
Variable strptime : string → option Date.

(** A request that carries only a new, non-zero [equipment_id]: the row is
    re-pointed, then the rule runs on the new equipment with the outcome
    already stored on the row; the call returns the row, or raises what
    the rule raised. *)
Lemma update_equipment_id_only (s : Store) (id n o : Z) (iv : Intervention) :
  interventions s !! id = Some iv → outcome_id iv = Some o → n ≠ 0 → o ≠ 0 →
  update_intervention int_of_str strptime id {[ "equipment_id" := VInt n ]} s =
    match _update_equipment_status n o
            (with_interventions (alter (with_equipment_id n) id) s) with
    | (Return _, s') => (Return (Some (with_equipment_id n iv)), s')
    | (Raise e, s') => (Raise e, s')
    end.
Proof.
  intros Hiv Ho Hn Ho0. apply Z.eqb_neq in Hn, Ho0.
  set (s1 := with_interventions (alter (with_equipment_id n) id) s).
  assert (Hnow : default iv (interventions s1 !! id) = with_equipment_id n iv).
  { unfold s1. cbn [with_interventions interventions].
    by rewrite lookup_alter_eq, Hiv. }
  unfold update_intervention.
  erewrite bind_return; cycle 1.
  { unfold Intervention_query_get, bind, get_store, ret. by rewrite Hiv. }
  cbv beta iota.
  do 4 (erewrite bind_return
          by (apply when_in_absent; by rewrite lookup_singleton_ne)).
  erewrite bind_return; cycle 1.
  { erewrite when_in_present by apply lookup_singleton_eq.
    unfold py_int, set_equipment_id, alter_intervention, modify, bind, ret.
    fold s1. reflexivity. }
  rewrite lookup_singleton_ne by discriminate.
  erewrite bind_return by reflexivity.
  erewrite bind_return by reflexivity.
  rewrite Hnow. cbn [outcome_id iv_equipment_id with_equipment_id].
  rewrite Ho. cbn [outcome_to_check opt_truthy].
  rewrite Hn, Ho0. cbn [negb andb when].
  assert (Hok : unchanged_or value_eqb not_null (description iv)
                  (description (with_equipment_id n iv)) = true).
  { unfold unchanged_or. cbn [description with_equipment_id]. by rewrite value_eqb_refl. }
  pose proof (update_status_frame s1 n o) as [_ Hfr].
  unfold bind at 1.
  rewrite (bind_return _ _ _ _ _ (flush_intervention_ok id iv _ s1 Hnow Hok)).
  destruct (_update_equipment_status n o s1) as [[[]|e] s'] eqn:Hrule; [|reflexivity].
  cbn [snd] in Hfr.
  assert (Hnow' : default iv (interventions s' !! id) = with_equipment_id n iv)
    by (by rewrite Hfr).
  rewrite (bind_return _ _ _ _ _ (flush_intervention_ok id iv _ s' Hnow' Hok)).
  unfold commit, read_intervention, bind, get_store, ret.
  by rewrite Hnow'.
Qed.

(** With a stored outcome RESOLVED the carried-over outcome reaches the
    rule and the newly referenced equipment becomes WORKING. *)
Lemma carried_over_resolved (s : Store) (id n : Z) (iv : Intervention) (e : Equipment) :
  interventions s !! id = Some iv → outcome_id iv = Some OUTCOME_RESOLVED →
  equipment s !! n = Some e → n ≠ 0 →
  ∃ s', update_intervention int_of_str strptime id {[ "equipment_id" := VInt n ]} s
          = (Return (Some (with_equipment_id n iv)), s') ∧
        status_id <$> equipment s' !! n = Some STATUS_WORKING.
Proof.
  intros Hiv Ho He Hn.
  rewrite (update_equipment_id_only s id n OUTCOME_RESOLVED iv Hiv Ho Hn) by done.
  rewrite (update_status_cases _ n _ e) by done. rewrite Z.eqb_refl.
  eexists. split; [reflexivity|].
  cbn [with_equipment with_interventions equipment].
  by rewrite lookup_alter_eq, He.
Qed.

(** C6.  Intervention 1 of the sample store has the stored outcome
    PENDING (3).  A request that only re-points it to the working printer
    (equipment 2) carries that outcome over to the rule, and the call
    raises AttributeError there: the printer's [status_id] is still
    WORKING (1), not UNDER_REPAIR (2). *)
Theorem C6_carried_over_pending_raises :
  let data : gmap string value := {[ "equipment_id" := VInt 2 ]} in
  let r := update_intervention int_of_str strptime 1 data Sample.store in
  outcome_id <$> interventions Sample.store !! 1 = Some (Some OUTCOME_PENDING) ∧
  data !! "outcome_id" = None ∧
  r.1 = Raise attribute_error ∧
  status_id <$> equipment r.2 !! 2 = Some STATUS_WORKING ∧
  STATUS_WORKING ≠ STATUS_UNDER_REPAIR.
Proof.
  intros data r.
  assert (Hr : r = (Raise attribute_error,
                    with_interventions (alter (with_equipment_id 2) 1) Sample.store)).
  { unfold r, data.
    rewrite (update_equipment_id_only Sample.store 1 2 OUTCOME_PENDING Sample.iv1)
      by done.
    by rewrite (update_status_cases _ 2 _ Sample.printer). }
  rewrite Hr. repeat split; done.
Qed.

End UpdateInterventionClaims.

(** * Further properties of the services *)

(** ** The rule's footprint, failures and idempotence *)

Module RuleFacts.
Import InterventionService SyncRule Footprint.

Lemma status_only_refl (t : gmap Z Equipment) : status_only t t.
Proof. intros k. destruct (t !! k) as [[]|]; done. Qed.

Lemma status_only_trans (t1 t2 t3 : gmap Z Equipment) :
  status_only t1 t2 → status_only t2 t3 → status_only t1 t3.
Proof.
  intros H12 H23 k. specialize (H12 k). specialize (H23 k).
  destruct (t1 !! k) as [e1|], (t2 !! k) as [e2|], (t3 !! k) as [e3|]; try done.
  rewrite H23, H12. by destruct e1.
Qed.

Lemma status_only_alter (t : gmap Z Equipment) (id v : Z) :
  status_only t (alter (with_status_id v) id t).
Proof.
  intros k. rewrite lookup_alter. case_decide as Hk.
  - subst k. destruct (t !! id) as [[]|]; done.
  - destruct (t !! k) as [[]|]; done.
Qed.

Lemma only_row_refl {V} (id : Z) (t : gmap Z V) : only_row id t t.
Proof. done. Qed.

Lemma only_row_trans {V} (id : Z) (t1 t2 t3 : gmap Z V) :
  only_row id t1 t2 → only_row id t2 t3 → only_row id t1 t3.
Proof.
  intros [H12 I12] [H23 I23]. split.
  - intros k Hk. by rewrite H23, H12.
  - by rewrite I23.
Qed.

Lemma only_row_alter {V} (f : V → V) (id : Z) (t : gmap Z V) :
  only_row id t (alter f id t).
Proof.
  split.
  - intros k Hk. by rewrite lookup_alter_ne.
  - rewrite lookup_alter_eq. apply fmap_is_Some.
Qed.

Lemma rule_changes (s : Store) (id o : Z) :
  users (_update_equipment_status id o s).2 = users s ∧
  interventions (_update_equipment_status id o s).2 = interventions s ∧
  only_row id (equipment s) (equipment (_update_equipment_status id o s).2) ∧
  status_only (equipment s) (equipment (_update_equipment_status id o s).2).
Proof.
  destruct (update_status_frame s id o) as [Hu Hi].
  split; [done|]. split; [done|].
  destruct (equipment s !! id) as [e|] eqn:He.
  - rewrite (update_status_cases s id o e He).
    destruct (o =? OUTCOME_RESOLVED).
    + split; [apply only_row_alter|apply status_only_alter].
    + destruct (o =? Z.lor OUTCOME_PENDING o);
        (split; [apply only_row_refl|apply status_only_refl]).
  - rewrite (update_status_absent s id o He).
    split; [apply only_row_refl|apply status_only_refl].
Qed.

(** *** Composing footprints along the monad *)

Section Keeps.
Context (R : Store → Store → Prop) `{!PreOrder R}.

Lemma keeps_ret {A} (a : A) : keeps R (ret a).
Proof. intros s. reflexivity. Qed.

Lemma keeps_raise {A} (e : exn) : keeps R (@raise A e).
Proof. intros s. reflexivity. Qed.

Lemma keeps_get_store : keeps R get_store.
Proof. intros s. reflexivity. Qed.

Lemma keeps_pure {A} (m : M A) : (∀ s, (m s).2 = s) → keeps R m.
Proof. intros H s. rewrite H. reflexivity. Qed.

Lemma keeps_bind {A B} (m : M A) (k : A → M B) :
  keeps R m → (∀ a, keeps R (k a)) → keeps R (bind m k).
Proof.
  intros Hm Hk s. unfold bind. specialize (Hm s).
  destruct (m s) as [[a|e] s1]; cbn [snd] in *; [|done].
  etransitivity; [exact Hm|apply Hk].
Qed.

Lemma keeps_when (b : bool) (m : M unit) : keeps R m → keeps R (when b m).
Proof. intros Hm. destruct b; [done|apply keeps_ret]. Qed.

Lemma keeps_when_in (data : gmap string value) (key : string) (body : value → M unit) :
  (∀ v, keeps R (body v)) → keeps R (when_in data key body).
Proof. intros Hb. unfold when_in. destruct (data !! key); [apply Hb|apply keeps_ret]. Qed.

Lemma keeps_modify (f : Store → Store) : (∀ s, R s (f s)) → keeps R (modify f).
Proof. intros Hf s. apply Hf. Qed.

End Keeps.

Lemma update_footprint_alter (f : Intervention → Intervention) (id : Z) (s : Store) :
  update_footprint id s (with_interventions (alter f id) s).
Proof.
  split; [done|]. split; [apply only_row_alter|apply status_only_refl].
Qed.

Lemma update_footprint_rule (id n o : Z) :
  keeps (update_footprint id) (_update_equipment_status n o).
Proof.
  intros s. destruct (rule_changes s n o) as (Hu & Hi & _ & Hs).
  split; [done|]. split; [|done]. rewrite Hi. apply only_row_refl.
Qed.

End RuleFacts.

Global Instance update_footprint_preorder (id : Z) :
  PreOrder (Footprint.update_footprint id).
Proof.
  split.
  - intros s. split; [done|]. split; [apply RuleFacts.only_row_refl|apply RuleFacts.status_only_refl].
  - intros s1 s2 s3 (Hu & Hi & He) (Hu' & Hi' & He'). split; [congruence|]. split.
    + by apply RuleFacts.only_row_trans with (interventions s2).
    + by apply RuleFacts.status_only_trans with (equipment s2).
Qed.

Section RuleExtras.
Import InterventionService SyncRule Footprint RuleFacts.

(** The rule touches one equipment row at most, and of that row only
    [status_id]: users, interventions, every other equipment row and the
    other columns of the target are as before, whatever the outcome id and
    whether the call returns or raises. *)
Theorem rule_footprint (s : Store) (id o : Z) :
  let s' := (_update_equipment_status id o s).2 in
  users s' = users s ∧ interventions s' = interventions s ∧
  only_row id (equipment s) (equipment s') ∧
  status_only (equipment s) (equipment s').
Proof. apply rule_changes. Qed.

(** The failures of the rule.  On an existing equipment a call whose
    outcome id is not RESOLVED but has its two low bits set (3, 7, 11,
    ...) raises; conversely a call that raises AttributeError was such a
    call.  On an id outside the database's integer range, which no row
    has, the call raises as well (the lookup cannot bind the id).  A call
    with an outcome id other than RESOLVED never changes the store,
    whether it returns or raises. *)
Theorem rule_failures (s : Store) (id o : Z) :
  (is_Some (equipment s !! id) ∧ o ≠ OUTCOME_RESOLVED ∧ Z.land o 3 = 3 →
     failed (_update_equipment_status id o s).1 = true) ∧
  (∀ msg, (_update_equipment_status id o s).1 = Raise (AttributeError msg) →
     is_Some (equipment s !! id) ∧ o ≠ OUTCOME_RESOLVED ∧ Z.land o 3 = 3) ∧
  (equipment s !! id = None ∧ sqlite_integer id = false →
     failed (_update_equipment_status id o s).1 = true) ∧
  (o ≠ OUTCOME_RESOLVED → (_update_equipment_status id o s).2 = s).
Proof.
  destruct (equipment s !! id) as [e|] eqn:He.
  - rewrite (update_status_cases s id o e He).
    destruct (o =? OUTCOME_RESOLVED) eqn:H1.
    + apply Z.eqb_eq in H1. cbn. split; [intros (_ & ? & _); done|].
      split; [done|]. split; [intros [? _]; done|done].
    + apply Z.eqb_neq in H1. rewrite raises_iff_low_bits.
      destruct (Z.land o 3 =? 3) eqn:H2.
      * apply Z.eqb_eq in H2. cbn. split; [done|]. split; [|split; [intros [? _]|]; done].
        intros msg _. split; [by eexists|done].
      * apply Z.eqb_neq in H2. cbn. split; [intros (_ & _ & ?); done|].
        split; [done|]. split; [intros [? _]; done|done].
  - rewrite (update_status_absent s id o He). cbn.
    split; [intros ([? ?] & _); done|]. split; [|split; [|done]].
    + intros msg. by destruct (sqlite_integer id).
    + intros [_ ->]. done.
Qed.

(** Applying the rule a second time, right after the first, gives the same
    result and the same store as the first application did. *)
Theorem rule_idempotent (s : Store) (id o : Z) :
  _update_equipment_status id o (_update_equipment_status id o s).2 =
  _update_equipment_status id o s.
Proof. apply update_status_twice. Qed.

End RuleExtras.

(** ** What update_intervention may change *)

Section UpdateFootprint.
Import InterventionService Footprint RuleFacts.

Variable int_of_str : string → option Z.
Variable strptime : string → option Date.

Lemma py_int_store (v : value) (s : Store) : (py_int int_of_str v s).2 = s.
Proof. destruct v; cbn; [done..|]. by destruct (int_of_str _). Qed.

Lemma try_strptime_store (v : value) (s : Store) : (try_strptime strptime v s).2 = s.
Proof. by destruct v. Qed.

Lemma keeps_set (id : Z) (f : Intervention → Intervention) :
  keeps (update_footprint id) (alter_intervention f id).
Proof. apply keeps_modify. intros s. apply update_footprint_alter. Qed.

Local Ltac kbind := apply keeps_bind; [apply _| |].
Local Ltac kpure := apply keeps_pure; [apply _|].
Local Ltac kret := apply keeps_ret; apply _.
Local Ltac kint := kbind; [kpure; apply py_int_store|intros ?].

Lemma update_intervention_keeps (id : Z) (data : gmap string value) :
  keeps (update_footprint id) (update_intervention int_of_str strptime id data).
Proof.
  unfold update_intervention.
  kbind; [kpure; intros s; apply SyncRule.intervention_get_store|].
  intros [loaded|]; [|kret].
  kbind; [|intros _].
  { apply keeps_when_in; [apply _|]. intros v. apply keeps_set. }
  kbind; [|intros _].
  { apply keeps_when_in; [apply _|]. intros v. kint. apply keeps_set. }
  kbind; [|intros _].
  { apply keeps_when_in; [apply _|]. intros v. apply keeps_when; [apply _|].
    kbind; [kpure; apply try_strptime_store|].
    intros [d|]; [apply keeps_set|kret]. }
  kbind; [|intros _].
  { apply keeps_when_in; [apply _|]. intros v. kint. apply keeps_set. }
  kbind; [|intros _].
  { apply keeps_when_in; [apply _|]. intros v. kint. apply keeps_set. }
  kbind; [|intros new_outcome_id].
  { destruct (data !! "outcome_id"); [|kret].
    kint. kbind; [apply keeps_set|]. intros _. kret. }
  kbind; [kpure; done|]. intros now.
  kbind; [|intros _].
  { destruct (outcome_to_check _ _); [|kret].
    apply keeps_when; [apply _|].
    kbind; [kpure; apply SyncRule.flush_intervention_store|intros _].
    apply update_footprint_rule. }
  kbind; [kpure; apply SyncRule.flush_intervention_store|]. intros _.
  kbind; [kret|]. intros _.
  kbind; [kpure; done|]. intros now'. kret.
Qed.

(** Whatever the request holds, and whether the call returns or raises,
    [update_intervention] leaves the user table alone, creates and deletes
    no intervention and no equipment, changes no intervention other than
    the one addressed, and changes nothing of any equipment row but its
    [status_id]. *)
Theorem update_intervention_footprint (s : Store) (id : Z) (data : gmap string value) :
  let s' := (update_intervention int_of_str strptime id data s).2 in
  users s' = users s ∧
  only_row id (interventions s) (interventions s') ∧
  status_only (equipment s) (equipment s').
Proof. apply update_intervention_keeps. Qed.

End UpdateFootprint.

(** ** Partial updates that reach the rule *)

Section UpdateReachesRule.
Import InterventionService SyncRule.

Variable int_of_str : string → option Z.
Variable strptime : string → option Date.

(** A request whose only integer field is a new, non-zero outcome: the
    outcome is stored on the row and handed to the rule, on the equipment
    the row already references. *)
Lemma update_outcome_only (s : Store) (id o : Z) (iv : Intervention) :
  interventions s !! id = Some iv → iv_equipment_id iv ≠ 0 → o ≠ 0 →
  update_intervention int_of_str strptime id {[ "outcome_id" := VInt o ]} s =
    match _update_equipment_status (iv_equipment_id iv) o
            (with_interventions (alter (with_outcome_id o) id) s) with
    | (Return _, s') => (Return (Some (with_outcome_id o iv)), s')
    | (Raise e, s') => (Raise e, s')
    end.
Proof.
  intros Hiv Hn Ho. apply Z.eqb_neq in Hn, Ho.
  set (s1 := with_interventions (alter (with_outcome_id o) id) s).
  assert (Hnow : default iv (interventions s1 !! id) = with_outcome_id o iv).
  { unfold s1. cbn [with_interventions interventions].
    by rewrite lookup_alter_eq, Hiv. }
  unfold update_intervention.
  erewrite bind_return; cycle 1.
  { unfold Intervention_query_get, bind, get_store, ret. by rewrite Hiv. }
  cbv beta iota.
  do 5 (erewrite bind_return
          by (apply when_in_absent; by rewrite lookup_singleton_ne)).
  rewrite lookup_singleton_eq.
  erewrite bind_return; cycle 1.
  { unfold py_int, set_outcome_id, alter_intervention, modify, bind, ret.
    fold s1. reflexivity. }
  erewrite bind_return by reflexivity.
  rewrite Hnow. cbn [outcome_id iv_equipment_id with_outcome_id].
  unfold outcome_to_check. cbn [opt_truthy]. rewrite Ho. cbn [negb].
  rewrite Hn, Ho. cbn [negb andb when].
  assert (Hok : unchanged_or value_eqb not_null (description iv)
                  (description (with_outcome_id o iv)) = true).
  { unfold unchanged_or. cbn [description with_outcome_id]. by rewrite value_eqb_refl. }
  pose proof (update_status_frame s1 (iv_equipment_id iv) o) as [_ Hfr].
  unfold bind at 1.
  rewrite (bind_return _ _ _ _ _ (flush_intervention_ok id iv _ s1 Hnow Hok)).
  destruct (_update_equipment_status (iv_equipment_id iv) o s1) as [[[]|e] s'] eqn:Hrule;
    [|reflexivity].
  cbn [snd] in Hfr.
  assert (Hnow' : default iv (interventions s' !! id) = with_outcome_id o iv)
    by (by rewrite Hfr).
  rewrite (bind_return _ _ _ _ _ (flush_intervention_ok id iv _ s' Hnow' Hok)).
  unfold commit, read_intervention, bind, get_store, ret.
  by rewrite Hnow'.
Qed.


(** Re-pointing an intervention whose stored outcome is RESOLVED to an
    existing equipment [n]: the call returns the re-pointed row, the row is
    stored, [n] becomes WORKING, and no other equipment row changes (the
    equipment referenced before is not reverted). *)
Theorem repoint_resolved (s : Store) (id n : Z) (iv : Intervention) (e : Equipment) :
  interventions s !! id = Some iv → outcome_id iv = Some OUTCOME_RESOLVED →
  equipment s !! n = Some e → n ≠ 0 →
  ∃ s', update_intervention int_of_str strptime id {[ "equipment_id" := VInt n ]} s
          = (Return (Some (with_equipment_id n iv)), s') ∧
        interventions s' !! id = Some (with_equipment_id n iv) ∧
        equipment s' !! n = Some (with_status_id STATUS_WORKING e) ∧
        ∀ k, k ≠ n → equipment s' !! k = equipment s !! k.
Proof.
  intros Hiv Ho He Hn.
  rewrite (update_equipment_id_only int_of_str strptime s id n OUTCOME_RESOLVED iv Hiv Ho Hn)
    by done.
  rewrite (update_status_cases _ n _ e) by done. rewrite Z.eqb_refl.
  eexists. split; [reflexivity|].
  cbn [with_equipment with_interventions equipment interventions].
  split; [by rewrite lookup_alter_eq, Hiv|].
  split; [by rewrite lookup_alter_eq, He|].
  intros k Hk. by rewrite lookup_alter_ne.
Qed.

(** An outcome RESOLVED supplied in the request replaces whatever outcome
    the row had stored (PENDING, none, ...) and is the one the rule uses:
    the row's equipment becomes WORKING. *)
Theorem new_outcome_resolved_wins (s : Store) (id : Z) (iv : Intervention) (e : Equipment) :
  interventions s !! id = Some iv → iv_equipment_id iv ≠ 0 →
  equipment s !! iv_equipment_id iv = Some e →
  ∃ s', update_intervention int_of_str strptime id
          {[ "outcome_id" := VInt OUTCOME_RESOLVED ]} s
          = (Return (Some (with_outcome_id OUTCOME_RESOLVED iv)), s') ∧
        outcome_id <$> interventions s' !! id = Some (Some OUTCOME_RESOLVED) ∧
        status_id <$> equipment s' !! iv_equipment_id iv = Some STATUS_WORKING.
Proof.
  intros Hiv Hn He.
  rewrite (update_outcome_only s id OUTCOME_RESOLVED iv Hiv Hn) by done.
  rewrite (update_status_cases _ _ _ e) by done. rewrite Z.eqb_refl.
  eexists. split; [reflexivity|].
  cbn [with_equipment with_interventions equipment interventions].
  split; [by rewrite lookup_alter_eq, Hiv|]. by rewrite lookup_alter_eq, He.
Qed.


End UpdateReachesRule.

(** ** Further properties of update_user and delete_user *)

Module UserFacts.
Import UserService Closed UserSafety Footprint.

Lemma apply_updates_fixed (data : gmap string value) (u : User) :
  user_id (apply_updates data u) = user_id u ∧
  username (apply_updates data u) = username u ∧
  password_hash (apply_updates data u) = password_hash u.
Proof.
  unfold apply_updates, apply_field.
  destruct (data !! "role"), (data !! "phone"), (data !! "email"),
    (data !! "last_name"), (data !! "first_name"); done.
Qed.


(** The four possible ends of [update_user] on an existing user. *)
Lemma update_user_ends (id : Z) (data : gmap string value) (u : User) (s : Store) :
  users s !! id = Some u →
  update_user id data s = (Raise (ValueError last_admin_demotion_msg), s) ∨
  update_user id data s = (Raise (ValueError promotion_denied_msg), s) ∨
  update_user id data s = (Return (Some (apply_updates data u)),
                           with_users (alter (apply_updates data) id) s) ∨
  update_user id data s = (Raise integrity_error,
                           with_users (alter (apply_updates data) id) s).
Proof.
  intros Hu. rewrite (update_user_existing id data u s Hu).
  destruct (demotion_blocked data u s); [by left|].
  destruct (promotion_blocked data u); [right; by left|].
  destruct (names_kept data u); [right; right; by left|right; right; by right].
Qed.



End UserFacts.

Section UserExtras.
Import UserService Closed UserSafety UserFacts Footprint.

(** [update_user] never touches equipment or interventions, never creates,
    deletes or changes another user, and never changes the id, the
    username or the password hash of the user it addresses. *)
Theorem update_user_footprint (s : Store) (id : Z) (data : gmap string value) :
  let s' := (update_user id data s).2 in
  equipment s' = equipment s ∧ interventions s' = interventions s ∧
  only_row id (users s) (users s') ∧
  ∀ u u', users s !! id = Some u → users s' !! id = Some u' →
    user_id u' = user_id u ∧ username u' = username u ∧
    password_hash u' = password_hash u.
Proof.
  intros s'. unfold s'. clear s'.
  destruct (users s !! id) as [u|] eqn:Hu.
  - destruct (update_user_ends id data u s Hu) as [-> | [-> | [-> | ->]]]; cbn [snd].
    + split; [done|]. split; [done|]. split; [apply RuleFacts.only_row_refl|].
      intros x x' Hx Hx'. rewrite Hu in Hx'. injection Hx as <-. by injection Hx' as <-.
    + split; [done|]. split; [done|]. split; [apply RuleFacts.only_row_refl|].
      intros x x' Hx Hx'. rewrite Hu in Hx'. injection Hx as <-. by injection Hx' as <-.
    + split; [done|]. split; [done|]. split; [apply RuleFacts.only_row_alter|].
      intros x x' Hx Hx'. cbn [with_users users] in Hx'.
      rewrite lookup_alter_eq, Hu in Hx'. cbn in Hx'.
      injection Hx as <-. injection Hx' as <-. apply apply_updates_fixed.
    + split; [done|]. split; [done|]. split; [apply RuleFacts.only_row_alter|].
      intros x x' Hx Hx'. cbn [with_users users] in Hx'.
      rewrite lookup_alter_eq, Hu in Hx'. cbn in Hx'.
      injection Hx as <-. injection Hx' as <-. apply apply_updates_fixed.
  - rewrite (update_user_missing id data s Hu). cbn [snd].
    split; [done|]. split; [done|]. split; [apply RuleFacts.only_row_refl|].
    intros x x' Hx. discriminate.
Qed.




(** Deleting a user who is not an administrator, or an administrator when
    there are at least two: the call returns True, exactly that row leaves
    the user table, the number of administrators drops by one when the
    user was one and not otherwise, and a second call finds nothing and
    returns False. *)
Theorem delete_user_removes (s : Store) (id : Z) (u : User) :
  users s !! id = Some u →
  is_admin u = false ∨ 2 ≤ count_admins s →
  ∃ s', delete_user id s = (Return true, s') ∧
    users s' = delete id (users s) ∧
    count_admins s' = count_admins s - (if is_admin u then 1 else 0) ∧
    delete_user id s' = (Return false, s').
Proof.
  intros Hu Hok. rewrite (delete_user_existing id u s Hu).
  assert (Hg : is_admin u && (count_admins s <=? 1) = false).
  { destruct Hok as [-> | Hc]; [done|].
    apply andb_false_iff. right. apply Z.leb_gt. lia. }
  rewrite Hg. eexists. split; [reflexivity|]. split; [reflexivity|].
  split; [apply (count_admins_delete s id u Hu)|].
  apply delete_user_missing. cbn [with_users users]. apply lookup_delete_eq.
Qed.

End UserExtras.

(** ** The default-deny gate over all endpoints *)

Module GateFacts.
Import App.

(** Every entry of [app.view_functions] comes from the registration list. *)
Lemma view_functions_registered (e : string) (f : view_func) :
  view_functions !! e = Some f → f ∈ registered ∧ endpoint_name f = e.
Proof.
  intros H. apply elem_of_list_to_map_2 in H.
  apply list_elem_of_fmap in H as (g & Heq & Hg).
  injection Heq as -> ->. done.
Qed.

(** The handlers that carry the public marker. *)
Lemma registered_public (f : view_func) :
  f ∈ registered → getattr_is_public f false = true →
  endpoint_name f = "web.view_login_form" ∨ endpoint_name f = "user.login_api" ∨
  endpoint_name f = "user.logout_api".
Proof.
  intros Hf Hp. apply list_elem_of_In in Hf. cbv [registered In] in Hf.
  repeat (destruct Hf as [<- | Hf]; [first [discriminate Hp | cbn; tauto]|]).
  destruct Hf.
Qed.

Lemma static_prefix_nonempty (e : string) :
  String.prefix "static" e = true → String.eqb e "" = false.
Proof. by destruct e. Qed.

End GateFacts.

Section GateExtras.
Import App GateFacts.

(** An authenticated requester passes the hook on every endpoint, routed
    or not. *)
Theorem gate_lets_authenticated_through (endpoint : option string) (u : User) :
  global_security_check endpoint (Some u) = None.
Proof.
  unfold global_security_check.
  destruct (match endpoint with Some e => _ | None => false end); [done|].
  by destruct (match endpoint ≫= _ with Some f => _ | None => false end).
Qed.

(** For an anonymous requester the hook lets a request through exactly
    when its endpoint name starts with "static" or is one of the three
    marked handlers (login page, login API, logout API); every other
    request, one that matches no route included, gets the redirect to the
    login view. *)
Theorem gate_anonymous_allowlist :
  (∀ e : string,
     global_security_check (Some e) None = None ↔
       String.prefix "static" e = true ∨ e = "web.view_login_form" ∨
       e = "user.login_api" ∨ e = "user.logout_api") ∧
  (∀ endpoint : option string,
     global_security_check endpoint None = None ∨
     global_security_check endpoint None = Some (Redirect "web.view_login_form")) ∧
  global_security_check None None = Some (Redirect "web.view_login_form").
Proof.
  split; [|split; [|reflexivity]].
  - intros e. unfold global_security_check.
    destruct (String.prefix "static" e) eqn:Hp.
    + rewrite (static_prefix_nonempty e Hp). cbn. tauto.
    + rewrite andb_false_r. cbn [mbind option_bind is_authenticated negb].
      destruct (view_functions !! e) as [f|] eqn:Hl.
      * destruct (view_functions_registered e f Hl) as [Hreg Hname].
        destruct (getattr_is_public f false) eqn:Hm.
        -- split; [|done]. intros _. right. rewrite <- Hname.
           by apply registered_public.
        -- split; [done|]. intros [ ? | [ -> | [ -> | -> ] ] ]; [done|..];
             vm_compute in Hl; injection Hl as <-; discriminate Hm.
      * split; [done|]. intros [ ? | [ -> | [ -> | -> ] ] ]; [done|..]; vm_compute in Hl; discriminate Hl.
  - intros endpoint. unfold global_security_check.
    destruct (match endpoint with Some e => _ | None => false end); [by left|].
    destruct (match endpoint ≫= _ with Some f => _ | None => false end); [by left|].
    by right.
Qed.

End GateExtras.

(** ** Creating and deleting interventions *)

Module CrudFacts.
Import InterventionService InterventionCrud SyncRule Footprint RuleFacts.

Lemma le_foldr_max (k k0 : Z) (ks : list Z) :
  k ∈ k0 :: ks → k ≤ foldr Z.max k0 ks.
Proof.
  induction ks as [|a ks IH]; cbn [foldr].
  - intros ->%list_elem_of_singleton. lia.
  - intros [-> | [-> | Hin]%elem_of_cons]%elem_of_cons.
    + assert (k0 ≤ foldr Z.max k0 ks) by (apply IH, list_elem_of_here). lia.
    + lia.
    + assert (k ≤ foldr Z.max k0 ks) by (apply IH; by apply list_elem_of_further). lia.
Qed.

(** The key given to a new row is not in use. *)
Lemma next_key_fresh {V} (t : gmap Z V) : t !! next_key t = None.
Proof.
  destruct (t !! next_key t) as [v|] eqn:Hl; [exfalso|done].
  apply elem_of_map_to_list in Hl.
  assert (Hin : next_key t ∈ (map_to_list t).*1).
  { apply list_elem_of_fmap. by exists (next_key t, v). }
  unfold next_key in Hin at 1. unfold next_key in Hin.
  destruct ((map_to_list t).*1) as [|k0 ks]; [by apply elem_of_nil in Hin|].
  apply le_foldr_max in Hin. lia.
Qed.

Lemma create_footprint_refl (s : Store) : create_footprint s s.
Proof. split; [done|]. split; [done|apply status_only_refl]. Qed.

Global Instance create_footprint_preorder : PreOrder create_footprint.
Proof.
  split; [exact create_footprint_refl|].
  intros s1 s2 s3 (Hu & Hi & He) (Hu' & Hi' & He'). split; [congruence|]. split.
  - by trans (interventions s2).
  - by apply status_only_trans with (equipment s2).
Qed.

Lemma delete_intervention_cases (id : Z) (s : Store) :
  delete_intervention id s =
    match interventions s !! id with
    | Some _ => (Return true, with_interventions (delete id) s)
    | None => (if sqlite_integer id then Return false else Raise overflow_error, s)
    end.
Proof.
  unfold delete_intervention, Intervention_query_get, bind, get_store, ret, raise.
  destruct (interventions s !! id); [done|]. by destruct (sqlite_integer id).
Qed.

End CrudFacts.

Section InterventionCrudExtras.
Import InterventionService InterventionCrud SyncRule Footprint RuleFacts CrudFacts.

Variable int_of_str : string → option Z.
Variable strptime : string → option Date.
Variable today : Date.

Lemma int_if_given_store (data : gmap string value) (key : string) (s : Store) :
  (int_if_given int_of_str data key s).2 = s.
Proof.
  unfold int_if_given. destruct (truthy _); [|done].
  unfold bind. destruct (dict_get data key); cbn; [done..|].
  by destruct (int_of_str _).
Qed.



Local Ltac kbind := apply keeps_bind; [apply _| |].
Local Ltac kpure := apply keeps_pure; [apply _|].
Local Ltac kret := apply keeps_ret; apply _.

Lemma create_intervention_keeps (data : gmap string value) :
  keeps create_footprint (create_intervention int_of_str strptime today data).
Proof.
  unfold create_intervention.
  kbind; [|intros date_val].
  { destruct (truthy _); [|kret]. kbind; [|intros ?; kret].
    kpure. intros s. by destruct (dict_get data "date"). }
  kbind; [kpure; apply int_if_given_store|intros duration].
  kbind; [kpure; apply int_if_given_store|intros user].
  kbind; [kpure; apply int_if_given_store|intros equipment].
  kbind; [kpure; apply int_if_given_store|intros outcome].
  kbind; [|intros row].
  { intros s. unfold session_add_intervention.
    destruct equipment; [|apply create_footprint_refl].
    destruct (not_null _); [|apply create_footprint_refl].
    unfold bind, get_store, modify, ret. cbn [snd intervention_id].
    split; [done|]. split; [|apply status_only_refl].
    cbn [with_interventions interventions]. apply insert_subseteq, next_key_fresh. }
  kbind; [|intros _].
  { destruct (outcome_id row) as [o|]; [|kret]. apply keeps_when; [apply _|].
    intros s. destruct (rule_changes s (iv_equipment_id row) o) as (Hu & Hi & _ & Hs).
    split; [done|]. split; [by rewrite Hi|done]. }
  kbind; [kret|intros _]. kret.
Qed.

(** Whatever the request holds, and whether the call returns or raises,
    [create_intervention] leaves the user table alone, keeps every logged
    intervention exactly as it was (it can only add a row), and changes
    nothing of any equipment row but its [status_id]. *)
Theorem create_intervention_footprint (s : Store) (data : gmap string value) :
  let s' := (create_intervention int_of_str strptime today data s).2 in
  users s' = users s ∧
  interventions s ⊆ interventions s' ∧
  status_only (equipment s) (equipment s').
Proof. apply create_intervention_keeps. Qed.




(** Deleting an intervention, by an id of the database's integer range,
    removes that row and nothing else: the answer tells whether the row
    existed, every other intervention, all equipment (statuses included)
    and all users are as before. *)
Theorem delete_intervention_effect (s : Store) (id : Z) :
  sqlite_integer id = true →
  ∃ s', delete_intervention id s
          = (Return (bool_decide (is_Some (interventions s !! id))), s') ∧
    interventions s' = delete id (interventions s) ∧
    equipment s' = equipment s ∧ users s' = users s.
Proof.
  intros Hid. rewrite delete_intervention_cases, Hid.
  destruct (interventions s !! id) as [iv|] eqn:Hl.
  - eexists. split; [reflexivity|]. done.
  - exists s. split; [reflexivity|]. by rewrite delete_id.
Qed.

End InterventionCrudExtras.

(** ** Creating and editing equipment *)

Global Instance equipment_footprint_preorder (id : Z) :
  PreOrder (Footprint.equipment_footprint id).
Proof.
  split.
  - intros s. split; [done|]. split; [done|apply RuleFacts.only_row_refl].
  - intros s1 s2 s3 (Hu & Hi & He) (Hu' & Hi' & He'). split; [congruence|].
    split; [congruence|]. by apply RuleFacts.only_row_trans with (equipment s2).
Qed.

Section EquipmentCrudExtras.
Import InterventionService EquipmentCrud Footprint RuleFacts CrudFacts.

Variable int_of_str : string → option Z.

Lemma py_int_pure (v : value) (s : Store) : (py_int int_of_str v s).2 = s.
Proof. destruct v; cbn; [done..|]. by destruct (int_of_str _). Qed.

Lemma py_int_none (s : Store) :
  py_int int_of_str VNone s =
  (Raise (TypeError "int() argument must be a string, a bytes-like object or a real number, not 'NoneType'"), s).
Proof. reflexivity. Qed.

Lemma keeps_alter_equipment (id : Z) (f : Equipment → Equipment) :
  keeps (equipment_footprint id) (alter_equipment f id).
Proof.
  apply keeps_modify. intros s. split; [done|]. split; [done|apply only_row_alter].
Qed.

Lemma flush_equipment_pure (id : Z) (loaded : Equipment) (s : Store) :
  (session_flush_equipment id loaded s).2 = s.
Proof.
  unfold session_flush_equipment, bind, get_store, ret, raise.
  destruct (_ && _); [|done]. by destruct (unchanged_or _ _ _ _).
Qed.

Lemma location_eqb_refl (a : option Z) : location_eqb a a = true.
Proof. destruct a; cbn; [apply Z.eqb_refl|done]. Qed.

Local Ltac kbind := apply keeps_bind; [apply _| |].
Local Ltac kpure := apply keeps_pure; [apply _|].
Local Ltac kret := apply keeps_ret; apply _.
Local Ltac kint := kbind; [kpure; apply py_int_pure|intros ?].

Lemma update_equipment_keeps (id : Z) (data : gmap string value) :
  keeps (equipment_footprint id) (update_equipment int_of_str id data).
Proof.
  unfold update_equipment.
  kbind; [kpure; intros s; apply SyncRule.query_get_store|]. intros [loaded|]; [|kret].
  kbind; [|intros _].
  { apply keeps_when_in; [apply _|]. intros v. apply keeps_alter_equipment. }
  kbind; [|intros _].
  { apply keeps_when_in; [apply _|]. intros v. apply keeps_alter_equipment. }
  kbind; [|intros _].
  { apply keeps_when_in; [apply _|]. intros v. kint. apply keeps_alter_equipment. }
  kbind; [|intros _].
  { apply keeps_when_in; [apply _|]. intros v. kint. apply keeps_alter_equipment. }
  kbind; [|intros _].
  { apply keeps_when_in; [apply _|]. intros v. kint. apply keeps_alter_equipment. }
  kbind; [kpure; apply flush_equipment_pure|intros _].
  kbind; [kret|intros _].
  kbind; [kpure; done|intros ?]. kret.
Qed.

(** Whatever the request holds, and whether the call returns or raises,
    [update_equipment] touches no user and no intervention, changes no
    equipment row other than the one addressed, and neither creates nor
    removes a row (an unknown id changes nothing at all). *)
Theorem update_equipment_footprint (s : Store) (id : Z) (data : gmap string value) :
  let s' := (update_equipment int_of_str id data s).2 in
  users s' = users s ∧ interventions s' = interventions s ∧
  only_row id (equipment s) (equipment s').
Proof. apply update_equipment_keeps. Qed.

(** An explicit status edit: a request that carries only an integer
    [status_id], of the database's integer range, stores exactly that
    status on the row, leaves its other columns as they were, and returns
    the stored row. *)
Theorem update_equipment_status_edit (s : Store) (id v : Z) (e : Equipment) :
  equipment s !! id = Some e → sqlite_integer v = true →
  ∃ s', update_equipment int_of_str id {[ "status_id" := VInt v ]} s
          = (Return (Some (with_status_id v e)), s') ∧
        equipment s' !! id = Some (with_status_id v e) ∧
        get_equipment_by_id id s' = (Return (Some (with_status_id v e)), s').
Proof.
  intros He Hv.
  set (s1 := with_equipment (alter (with_status_id v) id) s).
  assert (Hrow : equipment s1 !! id = Some (with_status_id v e)).
  { unfold s1. cbn [with_equipment equipment]. by rewrite lookup_alter_eq, He. }
  exists s1. split; [|split; [done|]].
  - unfold update_equipment.
    rewrite (bind_return _ _ _ _ _ (SyncRule.query_get_found s id e He)).
    cbv beta iota.
    do 3 (erewrite bind_return
            by (apply when_in_absent; by rewrite lookup_singleton_ne)).
    erewrite bind_return; cycle 1.
    { erewrite when_in_present by apply lookup_singleton_eq.
      unfold py_int, alter_equipment, modify, bind, ret. fold s1. reflexivity. }
    erewrite bind_return by (apply when_in_absent; by rewrite lookup_singleton_ne).
    erewrite bind_return; cycle 1.
    { unfold session_flush_equipment, bind, get_store. rewrite Hrow.
      cbn [from_option]. unfold Datatypes.id, unchanged_or.
      destruct e. cbn [with_status_id name eq_description type_id status_id location_id].
      rewrite !value_eqb_refl, Z.eqb_refl, location_eqb_refl, Hv, orb_true_r.
      reflexivity. }
    unfold commit, bind, get_store, ret. by rewrite Hrow.
  - unfold get_equipment_by_id. by apply SyncRule.query_get_found.
Qed.

(** [create_equipment] stores nothing unless it returns: whenever it
    raises the store is as before.  It raises in particular whenever
    [type_id], [status_id] or [location_id] is missing from the request
    (or null), with TypeError when the first missing one is reached. *)
Theorem create_equipment_all_or_nothing (s : Store) (data : gmap string value) :
  (∀ e, (create_equipment int_of_str data s).1 = Raise e →
        (create_equipment int_of_str data s).2 = s) ∧
  (data !! "type_id" = None ∨ data !! "status_id" = None ∨
   data !! "location_id" = None →
   ∃ e, create_equipment int_of_str data s = (Raise e, s)) ∧
  (data !! "type_id" = None →
   ∃ msg, create_equipment int_of_str data s = (Raise (TypeError msg), s)).
Proof.
  assert (Hatomic : ∀ e, (create_equipment int_of_str data s).1 = Raise e →
                         (create_equipment int_of_str data s).2 = s).
  { intros e. unfold create_equipment, bind.
    pose proof (py_int_pure (dict_get data "type_id") s) as H1.
    destruct (py_int int_of_str (dict_get data "type_id") s) as [[t|?] s1];
      cbn [snd] in H1; subst s1; [|done].
    pose proof (py_int_pure (dict_get data "status_id") s) as H2.
    destruct (py_int int_of_str (dict_get data "status_id") s) as [[st|?] s1];
      cbn [snd] in H2; subst s1; [|done].
    pose proof (py_int_pure (dict_get data "location_id") s) as H3.
    destruct (py_int int_of_str (dict_get data "location_id") s) as [[l|?] s1];
      cbn [snd] in H3; subst s1; [|done].
    unfold session_add_equipment.
    destruct (_ && _); [|done]. destruct (not_null _); [|done].
    cbn. discriminate. }
  split; [exact Hatomic|]. split.
  - intros Hmiss.
    assert (Hr : failed (create_equipment int_of_str data s).1 = true).
    { unfold create_equipment, bind, dict_get.
      pose proof (py_int_pure (default VNone (data !! "type_id")) s) as H1.
      destruct (py_int int_of_str (default VNone (data !! "type_id")) s) as [[t|?] s1] eqn:E1;
        cbn [snd] in H1; subst s1; [|done].
      pose proof (py_int_pure (default VNone (data !! "status_id")) s) as H2.
      destruct (py_int int_of_str (default VNone (data !! "status_id")) s) as [[st|?] s1] eqn:E2;
        cbn [snd] in H2; subst s1; [|done].
      pose proof (py_int_pure (default VNone (data !! "location_id")) s) as H3.
      destruct (py_int int_of_str (default VNone (data !! "location_id")) s) as [[l|?] s1] eqn:E3;
        cbn [snd] in H3; subst s1; [|done].
      destruct Hmiss as [H | [H | H]]; rewrite H in *; discriminate. }
    destruct (create_equipment int_of_str data s) as [[r|e] s'] eqn:E; [discriminate|].
    exists e. f_equal. by apply (Hatomic e).
  - intros H. unfold create_equipment, dict_get. rewrite H. eexists. reflexivity.
Qed.


End EquipmentCrudExtras.

(** ** Accounts: create_user and login *)

Module AccountFacts.
Import UserService Accounts Closed UserSafety Invariants.

Lemma with_username_lookup (v : value) (s : Store) (i : Z) (u : User) :
  with_username v s !! i = Some u ↔ users s !! i = Some u ∧ username u = v.
Proof.
  unfold with_username. rewrite map_lookup_filter_Some. cbn.
  split; intros [H1 H2]; (split; [done|]).
  - by apply value_eqb_eq, Is_true_true.
  - by apply Is_true_true, value_eqb_eq.
Qed.


Lemma find_by_username_None (v : value) (s : Store) :
  find_by_username v s = None ↔ ∀ i u, users s !! i = Some u → username u ≠ v.
Proof.
  unfold find_by_username. split.
  - intros H i u Hu Hv.
    assert (Hl : map_to_list (with_username v s) = []).
    { destruct (map_to_list (with_username v s)); [done|discriminate H]. }
    apply map_to_list_empty_iff in Hl.
    assert (Hw : with_username v s !! i = Some u) by (by apply with_username_lookup).
    rewrite Hl in Hw. by rewrite lookup_empty in Hw.
  - intros H. destruct (map_to_list (with_username v s)) as [|[i u] l] eqn:Hl; [done|].
    exfalso. assert (Hin : (i, u) ∈ map_to_list (with_username v s)).
    { rewrite Hl. apply list_elem_of_here. }
    apply elem_of_map_to_list, with_username_lookup in Hin as [Hu Hv].
    by apply (H i u).
Qed.


End AccountFacts.

Section AccountExtras.
Import UserService Accounts Closed UserSafety Invariants AccountFacts CrudFacts.

Variable generate_password_hash : value → res value.
Variable check_password_hash : value → value → res bool.

(** The possible ends of [create_user]. *)
Lemma create_user_cases (data : gmap string value) (s : Store) :
  create_user generate_password_hash data s =
    match find_by_username (dict_get data "username") s with
    | Some _ => (Raise (ValueError (username_taken_msg (dict_get data "username"))), s)
    | None =>
        if negb (truthy (dict_get data "password"))
        then (Raise (ValueError password_mandatory_msg), s)
        else
          match generate_password_hash (dict_get data "password") with
          | Raise e => (Raise e, s)
          | Return hash =>
              if not_null (dict_get data "username") && not_null hash
                 && not_null (dict_get data "first_name")
                 && not_null (dict_get data "last_name")
              then
                let row := mkUser (next_key (users s)) (dict_get data "username") hash
                             (column_default (VStr Roles.TECHNICIAN)
                                (default (VStr Roles.TECHNICIAN) (data !! "role")))
                             (dict_get data "first_name") (dict_get data "last_name")
                             (dict_get data "email") (dict_get data "phone") in
                (Return row, with_users (insert (next_key (users s)) row) s)
              else (Raise integrity_error, s)
          end
    end.
Proof.
  unfold create_user. unfold bind at 1. unfold get_store at 1.
  destruct (find_by_username _ s); [reflexivity|].
  destruct (negb (truthy _)); [reflexivity|].
  unfold bind at 1. unfold library at 1.
  destruct (generate_password_hash _) as [hash|e]; [|reflexivity].
  unfold session_add_user.
  destruct (not_null _ && not_null hash && _ && _); reflexivity.
Qed.


(** [create_user] keeps usernames unique: if no two stored users share a
    username before the call, none do after it, whatever the request. *)
Theorem create_user_keeps_usernames_unique (s : Store) (data : gmap string value) :
  usernames_unique s →
  usernames_unique (create_user generate_password_hash data s).2.
Proof.
  intros Huniq. rewrite create_user_cases.
  destruct (find_by_username _ s) eqn:Hf; [done|].
  destruct (negb _); [done|]. destruct (generate_password_hash _) as [h|]; [|done].
  destruct (_ && _); [|done]. cbn [snd with_users users].
  set (k := next_key (users s)).
  pose proof (proj1 (find_by_username_None _ _) Hf) as Hfree.
  intros i j u v Hi Hj Huv. cbn [snd with_users users] in Hi, Hj.
  destruct (decide (i = k)) as [->|Hik], (decide (j = k)) as [->|Hjk]; [done|..].
  - rewrite lookup_insert_eq in Hi. rewrite lookup_insert_ne in Hj by done.
    injection Hi as <-. cbn in Huv. exfalso. by apply (Hfree j v).
  - rewrite lookup_insert_eq in Hj. rewrite lookup_insert_ne in Hi by done.
    injection Hj as <-. cbn in Huv. exfalso. by apply (Hfree i u).
  - rewrite lookup_insert_ne in Hi, Hj by done. by apply (Huniq i j u v).
Qed.





End AccountExtras.

(** ** The user resource route *)

Module RouteFacts.
Import UserService Closed UserSafety UserFacts UserRoutes.

Lemma to_dict_no_hash (u : User) : to_dict u !! "password_hash" = None.
Proof.
  unfold to_dict. cbn [list_to_map foldr uncurry].
  rewrite !lookup_insert_ne by discriminate. apply lookup_empty.
Qed.

(** Every way the route can end for one of its three methods: an error
    response with the store untouched, one of the three successes, or the
    database's refusal of an update, which the route does not catch. *)
Lemma route_outcomes (current_user : User) (method : http_method) (id : Z)
    (input_data : option (gmap string value)) (s : Store) :
  method ≠ OTHER →
  (∃ msg code, (code = 400 ∨ code = 403 ∨ code = 404) ∧
     manage_single_resource current_user method id input_data s
       = (Return (error msg code), s)) ∨
  (∃ u, method = GET ∧ users s !! id = Some u ∧
     manage_single_resource current_user method id input_data s
       = (Return (jsonify [("user", JDict (to_dict u))] 200), s)) ∨
  (∃ d u', method = PUT ∧ input_data = Some d ∧
     update_user id d s = (Return (Some u'), (update_user id d s).2) ∧
     manage_single_resource current_user method id input_data s
       = (Return (jsonify [("message", JValue (VStr "User profile updated successfully"));
                           ("user", JDict (to_dict u'))] 200),
          (update_user id d s).2)) ∨
  (method = DELETE ∧
     delete_user id s = (Return true, (delete_user id s).2) ∧
     manage_single_resource current_user method id input_data s
       = (Return (jsonify [("message", JValue (VStr "User permanently deleted"))] 200),
          (delete_user id s).2)) ∨
  (∃ d, method = PUT ∧ input_data = Some d ∧
     manage_single_resource current_user method id input_data s
       = (Raise integrity_error, (update_user id d s).2)).
Proof.
  intros Hm. unfold manage_single_resource.
  destruct (match method with PUT | DELETE => true | _ => false end
            && negb (is_admin current_user) && negb (user_id current_user =? id)).
  { left. eexists _, _. split; [|reflexivity]. tauto. }
  destruct method; [| | |done].
  - (* GET *)
    unfold User_query_get, bind, get_store, ret.
    destruct (users s !! id) as [u|] eqn:Hu.
    + right. left. by exists u.
    + left. eexists _, _. split; [|reflexivity]. tauto.
  - (* PUT *)
    destruct input_data as [d|]; [|left; eexists _, _; split; [|reflexivity]; tauto].
    destruct (Nat.eqb (size d) 0); [left; eexists _, _; split; [|reflexivity]; tauto|].
    unfold except_ValueError, bind.
    destruct (users s !! id) as [u|] eqn:Hu.
    + destruct (update_user_ends id d u s Hu) as [E | [E | [E | E]]]; rewrite !E.
      * left. eexists _, _. split; [|reflexivity]. tauto.
      * left. eexists _, _. split; [|reflexivity]. tauto.
      * right. right. left. exists d, (apply_updates d u). rewrite !E.
        split; [done|]. split; [done|]. split; reflexivity.
      * right. right. right. right. exists d. rewrite !E. done.
    + rewrite (update_user_missing id d s Hu).
      left. eexists _, _. split; [|reflexivity]. tauto.
  - (* DELETE *)
    unfold except_ValueError, bind.
    destruct (users s !! id) as [u|] eqn:Hu.
    + rewrite (delete_user_existing id u s Hu).
      destruct (is_admin u && (count_admins s <=? 1)).
      * left. eexists _, _. split; [|reflexivity]. tauto.
      * right. right. right. left. done.
    + rewrite (delete_user_missing id s Hu).
      left. eexists _, _. split; [|reflexivity]. tauto.
Qed.

End RouteFacts.

Section RouteExtras.
Import UserService Closed UserSafety UserFacts UserRoutes RouteFacts.

(** A requester who is not an administrator cannot update or delete
    another user's account: the route answers 403 and the store is
    untouched, whatever the request body. *)
Theorem route_forbids_other_accounts (current_user : User) (method : http_method)
    (id : Z) (input_data : option (gmap string value)) (s : Store) :
  role current_user ≠ VStr Roles.ADMIN → user_id current_user ≠ id →
  method = PUT ∨ method = DELETE →
  manage_single_resource current_user method id input_data s =
  (Return (error "Unauthorized: Insufficient permissions" 403), s).
Proof.
  intros Hr Hid Hm. unfold manage_single_resource, is_admin.
  rewrite (value_eqb_neq _ _ Hr). apply Z.eqb_neq in Hid. rewrite Hid.
  by destruct Hm as [-> | ->].
Qed.

(** Every answer of the route has status 200, 400, 403 or 404, and an
    answer other than 200 means that nothing was changed: the store is
    exactly as before.  The safety errors of the services arrive as 400. *)
Theorem route_answers (current_user : User) (method : http_method) (id : Z)
    (input_data : option (gmap string value)) (s s' : Store) (r : response) :
  manage_single_resource current_user method id input_data s = (Return r, s') →
  (status r = 200 ∨ status r = 400 ∨ status r = 403 ∨ status r = 404) ∧
  (status r ≠ 200 → s' = s).
Proof.
  intros Hres. assert (Hcase : method = OTHER ∨ method ≠ OTHER)
    by (destruct method; [right; discriminate..|by left]).
  destruct Hcase as [->|Hm].
  { unfold manage_single_resource, raise in Hres. cbn in Hres. discriminate Hres. }
  destruct (route_outcomes current_user method id input_data s Hm)
    as [(msg & code & Hc & E) | [(u & _ & _ & E) | [(d & u' & _ & _ & _ & E)
        | [(_ & _ & E) | (d & _ & _ & E)]]]];
    rewrite E in Hres; [..|discriminate Hres];
    injection Hres as <- <-; cbn; (split; [tauto|done]).
Qed.

(** Through this route the system never loses its last administrator:
    from a store with at least one administrator every request, from any
    requester, leaves at least one. *)
Theorem route_keeps_an_admin (current_user : User) (method : http_method) (id : Z)
    (input_data : option (gmap string value)) (s : Store) :
  1 ≤ count_admins s →
  1 ≤ count_admins (manage_single_resource current_user method id input_data s).2.
Proof.
  intros Hc. assert (Hcase : method = OTHER ∨ method ≠ OTHER)
    by (destruct method; [right; discriminate..|by left]).
  destruct Hcase as [->|Hm].
  { unfold manage_single_resource. by destruct (_ && _). }
  destruct (route_outcomes current_user method id input_data s Hm)
    as [(msg & code & _ & ->) | [(u & _ & _ & ->) | [(d & u' & _ & _ & _ & ->)
        | [(_ & _ & ->) | (d & _ & _ & ->)]]]];
    cbn [snd]; [done|done| | |].
  - by apply update_user_keeps_admin.
  - by apply delete_user_keeps_admin.
  - by apply update_user_keeps_admin.
Qed.

(** No answer of the route carries a password hash: the response has no
    "password_hash" field, and neither has any object inside it. *)
Theorem route_never_returns_password_hash (current_user : User) (method : http_method)
    (id : Z) (input_data : option (gmap string value)) (s s' : Store) (r : response) :
  manage_single_resource current_user method id input_data s = (Return r, s') →
  body r !! "password_hash" = None ∧
  ∀ key d, body r !! key = Some (JDict d) → d !! "password_hash" = None.
Proof.
  intros Hres. assert (Hcase : method = OTHER ∨ method ≠ OTHER)
    by (destruct method; [right; discriminate..|by left]).
  destruct Hcase as [->|Hm].
  { unfold manage_single_resource, raise in Hres. cbn in Hres. discriminate Hres. }
  assert (Hdict : ∀ (l : list (string * jval)) key d,
            list_to_map (M := gmap string jval) l !! key = Some (JDict d) →
            (key, JDict d) ∈ l) by (intros; by apply elem_of_list_to_map_2).
  destruct (route_outcomes current_user method id input_data s Hm)
    as [(msg & code & _ & Heq) | [(u & _ & _ & Heq) | [(d & u' & _ & _ & _ & Heq)
        | [(_ & _ & Heq) | (d & _ & _ & Heq)]]]];
    rewrite Heq in Hres; [..|discriminate Hres];
    injection Hres as <- <-; (split; [reflexivity|]);
    intros key d0 Hl; apply Hdict in Hl; apply list_elem_of_In in Hl; cbn in Hl.
  - destruct Hl as [[=]|[]].
  - destruct Hl as [[= _ <-]|[]]. apply to_dict_no_hash.
  - destruct Hl as [[=]|[[= _ <-]|[]]]. apply to_dict_no_hash.
  - destruct Hl as [[=]|[]].
Qed.

(** A technician who asks, on the own account, for the administrator role
    gets 400 with the promotion error, and the store is untouched. *)
Theorem route_refuses_self_promotion (current_user : User) (d : gmap string value)
    (s : Store) :
  users s !! user_id current_user = Some current_user →
  role current_user = VStr Roles.TECHNICIAN →
  d !! "role" = Some (VStr Roles.ADMIN) →
  manage_single_resource current_user PUT (user_id current_user) (Some d) s =
  (Return (error promotion_denied_msg 400), s).
Proof.
  intros Hu Hr Hd. unfold manage_single_resource.
  rewrite Z.eqb_refl, andb_false_r.
  assert (Hsize : Nat.eqb (size d) 0 = false).
  { apply Nat.eqb_neq. apply map_size_ne_0_lookup_2 with "role". by eexists. }
  rewrite Hsize. unfold except_ValueError, bind.
  rewrite (update_user_existing _ d current_user s Hu).
  unfold demotion_blocked, promotion_blocked, is_admin, is_technician.
  rewrite Hd, Hr. reflexivity.
Qed.

End RouteExtras.

(** ** The properties above on the sample data *)

Section OnSampleData.
Import InterventionService InterventionCrud EquipmentCrud UserService Accounts
       UserRoutes Invariants Requests.

Lemma sample_usernames_unique : usernames_unique Sample.store.
Proof.
  intros i j u v Hi Hj Huv. cbn [Sample.store users] in Hi, Hj.
  apply lookup_insert_Some in Hi as [[<- <-]|[? Hi]];
    [|apply lookup_insert_Some in Hi as [[<- <-]|[? Hi]]; [|by rewrite lookup_empty in Hi]];
    (apply lookup_insert_Some in Hj as [[<- <-]|[? Hj]];
     [|apply lookup_insert_Some in Hj as [[<- <-]|[? Hj]]; [|by rewrite lookup_empty in Hj]]);
    done.
Defined.


Lemma repoint_resolved_witness :
  ∃ s', update_intervention no_int no_date 2 {[ "equipment_id" := VInt 2 ]} Sample.store
          = (Return (Some (with_equipment_id 2 Sample.iv2)), s') ∧
        interventions s' !! 2 = Some (with_equipment_id 2 Sample.iv2) ∧
        equipment s' !! 2 = Some (with_status_id STATUS_WORKING Sample.printer) ∧
        ∀ k, k ≠ 2 → equipment s' !! k = equipment Sample.store !! k.
Proof.
  apply (repoint_resolved no_int no_date Sample.store 2 2 Sample.iv2 Sample.printer);
    [reflexivity..|discriminate].
Defined.

Lemma new_outcome_resolved_wins_witness :
  ∃ s', update_intervention no_int no_date 1
          {[ "outcome_id" := VInt OUTCOME_RESOLVED ]} Sample.store
          = (Return (Some (with_outcome_id OUTCOME_RESOLVED Sample.iv1)), s') ∧
        outcome_id <$> interventions s' !! 1 = Some (Some OUTCOME_RESOLVED) ∧
        status_id <$> equipment s' !! iv_equipment_id Sample.iv1 = Some STATUS_WORKING.
Proof.
  apply (new_outcome_resolved_wins no_int no_date Sample.store 1 Sample.iv1 Sample.pc);
    [reflexivity|discriminate|reflexivity].
Defined.




Lemma delete_user_removes_witness :
  ∃ s', delete_user 2 Sample.store = (Return true, s') ∧
    users s' = delete 2 (users Sample.store) ∧
    count_admins s' = count_admins Sample.store - (if is_admin Sample.tech then 1 else 0) ∧
    delete_user 2 s' = (Return false, s').
Proof.
  apply (delete_user_removes Sample.store 2 Sample.tech); [reflexivity|left; reflexivity].
Defined.




Lemma create_user_keeps_usernames_unique_witness :
  usernames_unique Sample.store ∧
  usernames_unique (create_user toy_hash new_technician Sample.store).2.
Proof.
  split; [exact sample_usernames_unique|].
  apply (create_user_keeps_usernames_unique toy_hash Sample.store new_technician).
  exact sample_usernames_unique.
Defined.




Lemma route_forbids_other_accounts_witness :
  manage_single_resource Sample.tech DELETE 1 None Sample.store =
  (Return (error "Unauthorized: Insufficient permissions" 403), Sample.store).
Proof.
  apply (route_forbids_other_accounts Sample.tech DELETE 1 None Sample.store);
    [discriminate|discriminate|right; reflexivity].
Defined.

Lemma route_answers_witness :
  (status (error last_admin_deletion_msg 400) = 200 ∨
   status (error last_admin_deletion_msg 400) = 400 ∨
   status (error last_admin_deletion_msg 400) = 403 ∨
   status (error last_admin_deletion_msg 400) = 404) ∧
  (status (error last_admin_deletion_msg 400) ≠ 200 → Sample.store = Sample.store).
Proof.
  apply (route_answers Sample.admin DELETE 1 None Sample.store Sample.store
           (error last_admin_deletion_msg 400)).
  reflexivity.
Defined.

Lemma route_keeps_an_admin_witness :
  1 ≤ count_admins (manage_single_resource Sample.admin DELETE 1 None Sample.store).2.
Proof.
  apply (route_keeps_an_admin Sample.admin DELETE 1 None Sample.store).
  vm_compute. discriminate.
Defined.

Lemma route_never_returns_password_hash_witness :
  body (jsonify [("user", JDict (to_dict Sample.tech))] 200) !! "password_hash" = None ∧
  ∀ key d, body (jsonify [("user", JDict (to_dict Sample.tech))] 200) !! key
             = Some (JDict d) → d !! "password_hash" = None.
Proof.
  apply (route_never_returns_password_hash Sample.admin GET 2 None Sample.store Sample.store
           (jsonify [("user", JDict (to_dict Sample.tech))] 200)).
  reflexivity.
Defined.

Lemma route_refuses_self_promotion_witness :
  manage_single_resource Sample.tech PUT (user_id Sample.tech)
    (Some {[ "role" := VStr Roles.ADMIN ]}) Sample.store =
  (Return (error promotion_denied_msg 400), Sample.store).
Proof.
  apply (route_refuses_self_promotion Sample.tech {[ "role" := VStr Roles.ADMIN ]}
           Sample.store); reflexivity.
Defined.

End OnSampleData.
